(** * PDF Insight Explorer: the analyzer's retry loop and the page store

    A shallow embedding of [app.py]:

    - [AdvancedPDFAnalyzer.generate_content_with_retry]: excerpt, prompt
      template, bounded retry loop with exponential backoff;
    - [RealTimeDatabaseManager.extract_pdf_data] and [get_pdf_content]:
      the per-page INSERTs, the single commit, the unordered SELECT;
    - the branch of [main] that chooses between the free-form and the
      predefined analysis.

    Python [str] is [string], one [ascii] per character; Python [int] is
    [Z]; statements that can raise live in a state-and-exception monad, so
    that an exception leaving a function is a value one can state theorems
    about. *)

From Stdlib Require Import String Ascii List ZArith Lia Bool.
From Stdlib Require Import Sorted DecimalString.
Import ListNotations.
Local Open Scope string_scope.
Local Open Scope Z_scope.

(** ** Exceptions and the monad of statements *)

(** An instance of Python's [Exception]: its class name and [str(e)].
    Everything the modelled collaborators raise (the generative SDK, the PDF
    reader, attribute lookup, [time.sleep]) derives from [Exception], which is
    the class the handlers of [app.py] name. *)
Record exn : Type := mkExn { exn_class : string; exn_str : string }.

Inductive result (A : Type) : Type :=
| Ok (a : A)
| Raise (e : exn).
Arguments Ok {A} a.
Arguments Raise {A} e.

(** A statement running on a state [S]: it returns or raises, and the state
    it leaves behind survives in both cases. *)
Definition M (S A : Type) : Type := S -> result A * S.

Definition ret {S A} (a : A) : M S A := fun s => (Ok a, s).

Definition raise {S A} (e : exn) : M S A := fun s => (Raise e, s).

Definition bind {S A B} (m : M S A) (k : A -> M S B) : M S B :=
  fun s =>
    match m s with
    | (Ok a, s1) => k a s1
    | (Raise e, s1) => (Raise e, s1)
    end.

(** [try: body  except Exception as e: handler e]. *)
Definition try_except {S A} (body : M S A) (handler : exn -> M S A) : M S A :=
  fun s =>
    match body s with
    | (Ok a, s1) => (Ok a, s1)
    | (Raise e, s1) => handler e s1
    end.

Declare Scope py_scope.
Delimit Scope py_scope with py.
Notation "x <- m ;; k" := (bind m (fun x => k))
  (at level 100, m at next level, right associativity) : py_scope.
Notation "m ;;; k" := (bind m (fun _ => k))
  (at level 100, right associativity) : py_scope.
Local Open Scope py_scope.

(** [for x in xs: body x], where the body may [return v] from the enclosing
    function ([Some v]) or fall through to the next iteration ([None]). The
    loop yields [None] when it runs off the end of [xs]. *)
Fixpoint for_in {S A R} (xs : list A) (body : A -> M S (option R))
  : M S (option R) :=
  match xs with
  | [] => ret None
  | x :: xs' =>
      r <- body x ;;
      match r with
      | Some v => ret (Some v)
      | None => for_in xs' body
      end
  end.

(** [range(n)]: [0, 1, ..., n-1], empty when [n <= 0]. *)
Definition range (n : Z) : list Z := map Z.of_nat (seq 0 (Z.to_nat n)).

(** ** Strings *)

Definition LF : string := String "010"%char EmptyString.

(** [sep.join(parts)]. *)
Fixpoint join (sep : string) (parts : list string) : string :=
  match parts with
  | [] => EmptyString
  | [p] => p
  | p :: rest => p ++ sep ++ join sep rest
  end.

(** [needle in hay]: [needle] occurs as a contiguous run of [hay]. *)
Definition contains (hay needle : string) : Prop :=
  exists before after, hay = before ++ needle ++ after.

(** [s.startswith(p)]. *)
Definition startswith (s p : string) : Prop := exists rest, s = p ++ rest.

(** ** AdvancedPDFAnalyzer *)

Module Analyzer.

(** What [self.model.generate_content] hands back: an object whose [text]
    accessor yields the generated text or raises (the SDK raises from the
    accessor when the candidate holds no text part). *)
Record response : Type := mkResponse { text : result string }.

(** The world the analyzer runs in. [service n p] is what the remote service
    does with the [n]-th request it receives (counting from 0) when that
    request carries prompt [p]; [calls] logs the prompts sent, oldest first;
    [sleeps] logs the arguments of [time.sleep], oldest first. *)
Record World : Type := mkWorld {
  service : nat -> string -> result response;
  calls : list string;
  sleeps : list Z
}.

(** The world after one more request carrying [p]. *)
Definition log_call (p : string) (w : World) : World :=
  {| service := service w;
     calls := (calls w ++ [p])%list;
     sleeps := sleeps w |}.

(** The world after one more [time.sleep(secs)]. *)
Definition log_sleep (secs : Z) (w : World) : World :=
  {| service := service w;
     calls := calls w;
     sleeps := (sleeps w ++ [secs])%list |}.

(** [self.model.generate_content(full_prompt)] *)
Definition generate_content (full_prompt : string) : M World response :=
  fun w => (service w (length (calls w)) full_prompt, log_call full_prompt w).

(** [response.text] *)
Definition response_text (r : response) : M World string :=
  fun w => (text r, w).

(** [time.sleep(secs)]: raises [ValueError] on a negative argument. *)
Definition time_sleep (secs : Z) : M World unit :=
  fun w =>
    if secs <? 0
    then (Raise (mkExn "ValueError" "sleep length must be non-negative"), w)
    else (Ok tt, log_sleep secs w).

(** The excerpt cap of [pdf_content[:50000]]. *)
Definition cap : nat := Z.to_nat 50000.

(** [truncated_content = pdf_content[:50000]] *)
Definition truncated_content (pdf_content : string) : string :=
  substring 0 cap pdf_content.

Definition indent : string := "        ".

(** The three literal pieces of the f-string around its two fields. *)
Definition prompt_head : string :=
  LF ++ indent ++ "PDF Document Context:" ++ LF ++ indent.

Definition prompt_middle : string :=
  LF ++ LF ++ indent ++ "User's Specific Request:" ++ LF ++ indent.

Definition prompt_tail : string :=
  LF ++ LF ++ indent
  ++ "Please provide a comprehensive and precise response based on the document and the user's request."
  ++ LF ++ indent.

(** [full_prompt]: the triple-quoted f-string with its two fields. *)
Definition full_prompt (prompt pdf_content : string) : string :=
  prompt_head ++ truncated_content pdf_content
  ++ prompt_middle ++ prompt
  ++ prompt_tail.

(** One iteration of [for attempt in range(max_retries)]. *)
Definition attempt_body (fp : string) (max_retries attempt : Z)
  : M World (option string) :=
  try_except
    (response <- generate_content fp ;;
     t <- response_text response ;;
     ret (Some t))
    (fun e =>
       if attempt =? max_retries - 1
       then ret (Some ("Error processing request: " ++ exn_str e))
       else (time_sleep (2 ^ attempt) ;;; ret None)).

(** The [for] loop: [Some s] when it returns [s] from inside, [None] when it
    runs to completion. *)
Definition retry_loop (fp : string) (max_retries : Z)
  : M World (option string) :=
  for_in (range max_retries) (attempt_body fp max_retries).

Definition generate_content_with_retry
  (prompt pdf_content : string) (max_retries : Z) : M World string :=
  r <- retry_loop (full_prompt prompt pdf_content) max_retries ;;
  match r with
  | Some s => ret s
  | None => ret "Unable to process request"
  end.

(** The default of the keyword argument [max_retries]. *)
Definition default_max_retries : Z := 3.

(** What the [n]-th request does once its [text] has been read: the whole
    [try] body of one attempt. *)
Definition attempt_outcome (w : World) (n : nat) (fp : string)
  : result string :=
  match service w n fp with
  | Ok r => text r
  | Raise e => Raise e
  end.

(** The literal in front of [str(e)] in the error string. *)
Definition error_prefix : string := "Error processing request: ".

(** The arguments of [time.sleep] after failed attempts [a .. a+k-1]. *)
Definition backoff (a k : nat) : list Z :=
  map (fun j => 2 ^ Z.of_nat j) (seq a k).

(** [c * n]: a document of [n] copies of one character. *)
Fixpoint replicate (n : nat) (c : ascii) : string :=
  match n with
  | O => EmptyString
  | S n' => String c (replicate n' c)
  end.

(** A document of 60,000 characters, longer than the cap. *)
Definition long_document : string := replicate (Z.to_nat 60000) "x"%char.

(** A service that raises [boom] on its first [k] requests and answers
    [reply] from then on; a world that has not called it yet. *)
Definition boom : exn := mkExn "RuntimeError" "503 service unavailable".

Definition flaky (k : nat) (reply : string) : World :=
  {| service := fun n _ =>
                  if Nat.ltb n k then Raise boom
                  else Ok {| text := Ok reply |};
     calls := [];
     sleeps := [] |}.

(** A service that raises [boom] on every request. *)
Definition down : World :=
  {| service := fun _ _ => Raise boom; calls := []; sleeps := [] |}.

(** Seconds spent in a list of sleeps. *)
Definition total_sleep (secs : list Z) : Z := fold_right Z.add 0 secs.

(** The number of characters of the f-string outside its two fields. *)
Definition framing : nat :=
  (String.length prompt_head + String.length prompt_middle
   + String.length prompt_tail)%nat.

(** A service that raises on every request an exception whose message
    names the request. *)
Definition failing_with (msgs : nat -> string) : World :=
  {| service := fun n _ => Raise (mkExn "RuntimeError" (msgs n));
     calls := [];
     sleeps := [] |}.

End Analyzer.

(** ** RealTimeDatabaseManager *)

Module Store.

(** A row of [pdf_data]. The column [extracted_at] is filled by the engine's
    default and read by no statement of [app.py]; it is left out. *)
Record Row : Type := mkRow {
  id : Z;
  filename : string;
  page_number : Z;
  content : string
}.

(** One [sqlite3] connection in the module's default transaction mode: an
    INSERT opens a transaction implicitly, and rows written since the last
    commit are [pending] until [commit()] moves them to the [committed] rows
    of the database file. Both lists are in insertion order. *)
Record DB : Type := mkDB {
  committed : list Row;
  pending : list Row
}.

(** What a statement on this connection sees of [pdf_data]: the committed
    rows followed by its own uncommitted ones. *)
Definition table (db : DB) : list Row := (committed db ++ pending db)%list.

(** [sqlite3.connect(db_name)] on a database file holding [rows], followed
    by the CREATE TABLE IF NOT EXISTS and the commit of [__init__]. *)
Definition connect (rows : list Row) : DB :=
  {| committed := rows; pending := [] |}.

(** The next AUTOINCREMENT key: one more than the largest key in use. *)
Definition next_id (rows : list Row) : Z :=
  1 + fold_right (fun r m => Z.max (id r) m) 0 rows.

(** [self.cursor.execute('INSERT INTO pdf_data (filename, page_number,
    content) VALUES (?, ?, ?)', (fname, pn, text))] *)
Definition cursor_execute_insert (fname : string) (pn : Z) (txt : string)
  : M DB unit :=
  fun db =>
    (Ok tt,
     {| committed := committed db;
        pending :=
          (pending db
           ++ [ {| id := next_id (table db);
                   filename := fname;
                   page_number := pn;
                   content := txt |} ])%list |}).

(** [self.conn.commit()] *)
Definition conn_commit : M DB unit :=
  fun db =>
    (Ok tt, {| committed := (committed db ++ pending db)%list; pending := [] |}).

(** [self.cursor.execute('SELECT content FROM pdf_data')] followed by
    [fetchall()], each row reduced to [row[0]]: a scan of the table in
    rowid order. *)
Definition select_content : M DB (list string) :=
  fun db => (Ok (map content (table db)), db).

(** An uploaded file as [PyPDF2] sees it. [pages] is [Raise e] when
    [PdfReader(uploaded_file)] (or the first access to [.pages]) raises [e];
    otherwise it lists, per page in document order, what [extract_text()]
    does on that page: it returns a text or raises. *)
Record UploadedFile : Type := mkFile {
  name : string;
  pages : result (list (result string))
}.

(** One element of [extracted_data]: the dict with keys ['filename'],
    ['page_number'] and ['content']. *)
Record PageDict : Type := mkPage {
  d_filename : string;
  d_page_number : Z;
  d_content : string
}.

(** [PyPDF2.PdfReader(uploaded_file)], reduced to its page list. *)
Definition PdfReader (uploaded_file : UploadedFile)
  : M DB (list (result string)) :=
  fun db => (pages uploaded_file, db).

(** [pdf_reader.pages[page_num]] *)
Definition pages_getitem (ps : list (result string)) (page_num : Z)
  : M DB (result string) :=
  fun db =>
    match (if page_num <? 0 then None else nth_error ps (Z.to_nat page_num)) with
    | Some p => (Ok p, db)
    | None => (Raise (mkExn "IndexError" "sequence index out of range"), db)
    end.

(** [page.extract_text()] *)
Definition extract_text (page : result string) : M DB string :=
  fun db => (page, db).

(** [for x in xs: body], the body updating the local variables [L]. *)
Fixpoint for_each {S A L} (xs : list A) (body : A -> L -> M S L) (locals : L)
  : M S L :=
  match xs with
  | [] => ret locals
  | x :: xs' => l1 <- body x locals ;; for_each xs' body l1
  end.

(** The body of [for page_num in range(len(pdf_reader.pages))]; the locals
    are [(extracted_data, full_text)]. *)
Definition extract_body (fname : string) (ps : list (result string))
  (page_num : Z) (locals : list PageDict * string)
  : M DB (list PageDict * string) :=
  let '(extracted_data, full_text) := locals in
  page <- pages_getitem ps page_num ;;
  page_text <- extract_text page ;;
  let full_text := full_text ++ (page_text ++ LF ++ LF) in
  cursor_execute_insert fname (page_num + 1) page_text ;;;
  ret ((extracted_data
        ++ [ {| d_filename := fname;
                d_page_number := page_num + 1;
                d_content := page_text |} ])%list,
       full_text).

Definition extract_pdf_data (uploaded_file : UploadedFile)
  : M DB (list PageDict * string) :=
  pdf_reader <- PdfReader uploaded_file ;;
  locals <- for_each (range (Z.of_nat (length pdf_reader)))
              (extract_body (name uploaded_file) pdf_reader)
              ([], EmptyString) ;;
  conn_commit ;;;
  ret locals.

Definition get_pdf_content : M DB string :=
  rows <- select_content ;;
  ret (join " " rows).

(** A caller that uploads [files] one after the other through the same
    manager, catching whatever an upload raises as [main] does. *)
Definition upload (f : UploadedFile) : M DB unit :=
  try_except (extract_pdf_data f ;;; ret tt) (fun _ => ret tt).

Fixpoint upload_all (files : list UploadedFile) : M DB unit :=
  match files with
  | [] => ret tt
  | f :: rest => upload f ;;; upload_all rest
  end.

(** A file all of whose pages extract. *)
Definition readable (fname : string) (texts : list string) : UploadedFile :=
  {| name := fname; pages := Ok (map Ok texts) |}.

(** The text of the page at 0-based position [i] of [f], when [f] opens and
    that page extracts. *)
Definition page_text_at (f : UploadedFile) (i : nat) : option string :=
  match pages f with
  | Ok ps =>
      match nth_error ps i with
      | Some (Ok t) => Some t
      | _ => None
      end
  | Raise _ => None
  end.

(** The records [extract_pdf_data] writes for pages with texts [texts], the
    first of them numbered [first + 1], on a table that holds [rows]. *)
Fixpoint page_rows (fname : string) (first : Z) (texts : list string)
  (rows : list Row) : list Row :=
  match texts with
  | [] => []
  | t :: rest =>
      let r := {| id := next_id rows;
                  filename := fname;
                  page_number := first + 1;
                  content := t |} in
      r :: page_rows fname (first + 1) rest (rows ++ [r])
  end.

(** The dicts appended to [extracted_data] for the same pages. *)
Fixpoint page_dicts (fname : string) (first : Z) (texts : list string)
  : list PageDict :=
  match texts with
  | [] => []
  | t :: rest =>
      {| d_filename := fname; d_page_number := first + 1; d_content := t |}
      :: page_dicts fname (first + 1) rest
  end.

(** Each text followed by a blank line: what the loop adds to [full_text]. *)
Fixpoint terminated (texts : list string) : string :=
  match texts with
  | [] => EmptyString
  | t :: rest => (t ++ LF ++ LF) ++ terminated rest
  end.

(** The texts of the pages in front of the first one whose extraction
    raises, and the exception that one raises, if any. *)
Fixpoint leading_texts (ps : list (result string)) : list string * option exn :=
  match ps with
  | [] => ([], None)
  | Ok t :: rest => let '(ts, e) := leading_texts rest in (t :: ts, e)
  | Raise e :: _ => ([], Some e)
  end.

(** The texts [extract_pdf_data] gets to record from [f]: those of the pages
    in front of the first failure; none when the file does not open. *)
Definition recorded_texts (f : UploadedFile) : list string :=
  match pages f with
  | Ok ps => fst (leading_texts ps)
  | Raise _ => []
  end.

(** Record [r] stems from the page at 0-based position [i] of [f]. *)
Definition stems_from (r : Row) (f : UploadedFile) (i : nat) : Prop :=
  filename r = name f
  /\ page_text_at f i = Some (content r)
  /\ page_number r = Z.of_nat i + 1.

(** Sample uploads: a two-page file, a one-page file, and a two-page file
    whose second page cannot be extracted. *)
Definition alpha_beta : UploadedFile := readable "report.pdf" ["Alpha"; "Beta"].

Definition gamma : UploadedFile := readable "notes.pdf" ["Gamma"].

Definition broken : UploadedFile :=
  {| name := "broken.pdf";
     pages := Ok [Ok "Alpha";
                  Raise (mkExn "PdfReadError" "Unexpected end of stream")] |}.

(** The dict [extract_pdf_data] returns for the page it stored as [r]. *)
Definition dict_of_row (r : Row) : PageDict :=
  {| d_filename := filename r;
     d_page_number := page_number r;
     d_content := content r |}.

(** What a row says about its page, the key left aside. *)
Definition row_data (r : Row) : string * Z * string :=
  (filename r, page_number r, content r).

(** The page texts of [f] when it opens and every page extracts; nothing
    otherwise. *)
Definition complete_texts (f : UploadedFile) : list string :=
  match pages f with
  | Ok ps =>
      match leading_texts ps with
      | (ts, None) => ts
      | (_, Some _) => []
      end
  | Raise _ => []
  end.

(** File name, 1-based page number and text of pages [first+1, first+2, ...]
    with texts [texts]. *)
Fixpoint numbered (fname : string) (first : Z) (texts : list string)
  : list (string * Z * string) :=
  match texts with
  | [] => []
  | t :: rest => (fname, first + 1, t) :: numbered fname (first + 1) rest
  end.

(** A file that [PdfReader] cannot open. *)
Definition unreadable : UploadedFile :=
  {| name := "scan.pdf";
     pages := Raise (mkExn "PdfReadError" "EOF marker not found") |}.

End Store.

(** ** The "Analyze PDF" branch of [main] *)

Module Shell.

Import Analyzer.

(** What the shell renders for one press of the button. *)
Inductive display : Type :=
| st_warning (msg : string)
| st_results (analysis_type result : string)
| st_error (msg : string).

Definition analysis_options : list string :=
  [ "Summarize"; "Document Information"; "Step-by-Step Explanation";
    "Key Insights"; "Custom Analysis" ].

(** The predefined intents: every option but the free-form one. *)
Definition predefined_options : list string :=
  [ "Summarize"; "Document Information"; "Step-by-Step Explanation";
    "Key Insights" ].

(** The methods the class statement of [AdvancedPDFAnalyzer] defines. *)
Inductive method : Type :=
| meth_init
| meth_generate_content_with_retry.

Definition AdvancedPDFAnalyzer_dict : list (string * method) :=
  [ ("__init__", meth_init);
    ("generate_content_with_retry", meth_generate_content_with_retry) ].

Fixpoint dict_get (d : list (string * method)) (attr : string)
  : option method :=
  match d with
  | [] => None
  | (k, m) :: rest => if (k =? attr)%string then Some m else dict_get rest attr
  end.

(** [db_manager.pdf_analyzer.<attr>]: the bound method, or [AttributeError]. *)
Definition getattr (attr : string) : M World method :=
  match dict_get AdvancedPDFAnalyzer_dict attr with
  | Some m => ret m
  | None =>
      raise (mkExn "AttributeError"
               ("'AdvancedPDFAnalyzer' object has no attribute '" ++ attr ++ "'"))
  end.

(** Calling a bound method on positional string arguments. *)
Definition call (m : method) (args : list string) : M World string :=
  match m, args with
  | meth_generate_content_with_retry, [prompt; pdf_content] =>
      generate_content_with_retry prompt pdf_content default_max_retries
  | _, _ => raise (mkExn "TypeError" "unexpected arguments")
  end.

(** [c.lower()] on one character and [s.lower()]. *)
Definition lower_char (c : ascii) : ascii :=
  let n := nat_of_ascii c in
  if (Nat.leb 65 n && Nat.leb n 90)%bool then ascii_of_nat (n + 32) else c.

Fixpoint lower (s : string) : string :=
  match s with
  | EmptyString => EmptyString
  | String c rest => String (lower_char c) (lower rest)
  end.

(** [s.replace(" ", "_")] *)
Fixpoint replace_spaces (s : string) : string :=
  match s with
  | EmptyString => EmptyString
  | String c rest =>
      String (if Ascii.eqb c " "%char then "_"%char else c) (replace_spaces rest)
  end.

(** Lines 180-198: what one press of "Analyze PDF" displays. In a call
    expression the callee is evaluated before the arguments, so the attribute
    lookup comes first. *)
Definition analyze (analysis_type custom_prompt full_text : string)
  : M World display :=
  if ((analysis_type =? "Custom Analysis")%string
      && (custom_prompt =? EmptyString)%string)%bool
  then ret (st_warning "Please enter a custom prompt for analysis")
  else
    result <-
      (if (analysis_type =? "Custom Analysis")%string
       then
         m <- getattr "generate_content_with_retry" ;;
         call m [custom_prompt; full_text]
       else
         m <- getattr "analyze_pdf_content" ;;
         call m [full_text; replace_spaces (lower analysis_type)]) ;;
    ret (st_results analysis_type result).

(** The same press inside the [try] of [main], whose
    [except Exception as e] shows [f"Error processing PDF: {e}"]. *)
Definition on_analyze (analysis_type custom_prompt full_text : string)
  : M World display :=
  try_except (analyze analysis_type custom_prompt full_text)
    (fun e => ret (st_error ("Error processing PDF: " ++ exn_str e))).

(** [str(e)] of the [AttributeError] for the method the class lacks. *)
Definition no_analyze_pdf_content : string :=
  "'AdvancedPDFAnalyzer' object has no attribute 'analyze_pdf_content'".

End Shell.

(** ** The API key and the body of [main] *)

Module Startup.

(** [bool(v)] of a value that is [None] or a [str]. *)
Definition truthy (v : option string) : bool :=
  match v with
  | None => false
  | Some k => negb (k =? EmptyString)%string
  end.

(** [get_google_api_key()]: [getenv] is what [os.getenv('GOOGLE_API_KEY')]
    returns and [typed] the value of the sidebar's password field. The
    second component tells whether that field was rendered. *)
Definition get_google_api_key (getenv : option string) (typed : string)
  : option string * bool :=
  let api_key := getenv in
  if negb (truthy api_key) then (Some typed, true) else (api_key, false).

End Startup.

Module Page.

Import Analyzer Store Shell Startup.

(** The messages a run puts on the page. The fixed furniture (title,
    headers, sidebar texts) and the input widgets are not part of it. *)
Inductive message : Type :=
| st_success (msg : string)
| st_write (msg : string)
| st_show (d : display).

(** One run of the script: the manager's connection, the analyzer's world
    and the messages displayed so far. *)
Record App : Type := mkApp {
  db : DB;
  world : World;
  page : list message
}.

Definition lift_db {A} (m : M DB A) : M App A :=
  fun a =>
    let '(r, d) := m (db a) in
    (r, {| db := d; world := world a; page := page a |}).

Definition lift_world {A} (m : M World A) : M App A :=
  fun a =>
    let '(r, w) := m (world a) in
    (r, {| db := db a; world := w; page := page a |}).

Definition show (m : message) : M App unit :=
  fun a =>
    (Ok tt, {| db := db a; world := world a; page := (page a ++ [m])%list |}).

(** [str(n)] of a length. *)
Definition str_of_nat (n : nat) : string :=
  NilZero.string_of_uint (Nat.to_uint n).

(** Lines 152-201: what [main] does with an uploaded file. [custom_prompt],
    [analysis_type] and [button] are the values of the text area, of the
    select box and of [st.button("Analyze PDF")] in this run. *)
Definition process_upload (uploaded_file : UploadedFile)
  (custom_prompt analysis_type : string) (button : bool) : M App unit :=
  try_except
    (r <- lift_db (extract_pdf_data uploaded_file) ;;
     let '(extracted_data, full_text) := r in
     show (st_success ("Successfully uploaded " ++ name uploaded_file)) ;;;
     show (st_write ("Extracted " ++ str_of_nat (length extracted_data)
                     ++ " pages")) ;;;
     if button
     then
       d <- lift_world (analyze analysis_type custom_prompt full_text) ;;
       show (st_show d)
     else ret tt)
    (fun e => show (st_show (st_error ("Error processing PDF: " ++ exn_str e)))).

(** How a run of [main] ends: at [st.stop()], or at the end of the script. *)
Inductive run : Type :=
| Stopped (shown : list message)
| Finished (a : App).

(** [main()] on a database file holding [rows]. *)
Definition main (getenv : option string) (typed : string)
  (uploaded_file : option UploadedFile)
  (custom_prompt analysis_type : string) (button : bool)
  (rows : list Row) (w : World) : run :=
  let '(api_key, _) := get_google_api_key getenv typed in
  if negb (truthy api_key)
  then Stopped
         [st_show (st_warning "Please provide a valid Google Gemini Pro API Key")]
  else
    let a := {| db := connect rows; world := w; page := [] |} in
    match uploaded_file with
    | None => Finished a
    | Some f =>
        Finished (snd (process_upload f custom_prompt analysis_type button a))
    end.

(** The rows of the database file after a run that started on [rows]: what
    the run committed. The connection is the run's own ([main] builds its
    manager anew each time), so rows it left in an open transaction are never
    committed and go with it. *)
Definition stored_after (rows : list Row) (r : run) : list Row :=
  match r with
  | Stopped _ => rows
  | Finished a => committed (db a)
  end.

Definition world_after (w : World) (r : run) : World :=
  match r with
  | Stopped _ => w
  | Finished a => world a
  end.

(** What the user and the environment supply to one run. *)
Record Inputs : Type := mkInputs {
  in_getenv : option string;
  in_typed : string;
  in_file : option UploadedFile;
  in_prompt : string;
  in_type : string;
  in_button : bool
}.

Definition run_main (i : Inputs) (rows : list Row) (w : World) : run :=
  main (in_getenv i) (in_typed i) (in_file i) (in_prompt i) (in_type i)
    (in_button i) rows w.

(** Consecutive runs on the same database file and service. *)
Fixpoint sessions (inputs : list Inputs) (rows : list Row) (w : World)
  : list Row * World :=
  match inputs with
  | [] => (rows, w)
  | i :: rest =>
      sessions rest (stored_after rows (run_main i rows w))
        (world_after w (run_main i rows w))
  end.

(** The page records of the upload of one run, when the run has a key and
    its file extracts completely; none otherwise. *)
Definition complete_records (i : Inputs) : list (string * Z * string) :=
  if truthy (fst (get_google_api_key (in_getenv i) (in_typed i)))
  then
    match in_file i with
    | Some f => numbered (name f) 0 (complete_texts f)
    | None => []
    end
  else [].

(** The box shown by the handler of [main] for exception [e]. *)
Definition error_box (e : exn) : message :=
  st_show (st_error ("Error processing PDF: " ++ exn_str e)).

(** The two messages that follow a successful extraction of [n] pages. *)
Definition upload_messages (fname : string) (n : nat) : list message :=
  [ st_success ("Successfully uploaded " ++ fname);
    st_write ("Extracted " ++ str_of_nat n ++ " pages") ].

(** A run that starts on an empty store with nothing displayed. *)
Definition fresh_app (w : World) : App :=
  {| db := connect []; world := w; page := [] |}.

End Page.

(** * Properties *)

(** ** Strings and the composed prompt *)

Module PromptFacts.

Import Analyzer.

Lemma substring_0_short n : forall s,
  (String.length s <= n)%nat -> substring 0 n s = s.
Proof.
  induction n as [|n IH]; intros [|c s] Hlen; cbn in *;
    try reflexivity; try lia.
  f_equal. apply IH. lia.
Qed.

(** [s[:n]] is the first [min n (len s)] characters of [s]. *)
Lemma substring_0_prefix n : forall s,
  exists rest,
    s = substring 0 n s ++ rest
    /\ String.length (substring 0 n s) = Nat.min n (String.length s)
    /\ String.length rest = (String.length s - n)%nat.
Proof.
  induction n as [|n IH]; intros [|c s]; cbn.
  - exists EmptyString. now repeat split.
  - exists (String c s). now repeat split.
  - exists EmptyString. now repeat split.
  - destruct (IH s) as (rest & Hs & Hlen & Hrest).
    exists rest. repeat split; [now rewrite <- Hs | now rewrite Hlen | exact Hrest].
Qed.

Lemma contains_middle a b c : contains (a ++ b ++ c) b.
Proof. now exists a, c. Qed.

Lemma length_replicate c : forall n, String.length (replicate n c) = n.
Proof. induction n; cbn; congruence. Qed.

(** C3: the composed prompt is the fixed framing around two fields, the
    excerpt and the instruction. When the document has at most 50,000
    characters the excerpt is the document itself, so the prompt contains it
    verbatim; when it has more, the excerpt is exactly its first 50,000
    characters: the document is the excerpt followed by a non-empty rest that
    is left out, and the prompt contains the excerpt. *)
Theorem prompt_excerpt (prompt pdf_content : string) :
  full_prompt prompt pdf_content
  = prompt_head ++ truncated_content pdf_content
    ++ prompt_middle ++ prompt ++ prompt_tail
  /\ contains (full_prompt prompt pdf_content) (truncated_content pdf_content)
  /\ (Z.of_nat (String.length pdf_content) <= 50000 ->
      truncated_content pdf_content = pdf_content
      /\ contains (full_prompt prompt pdf_content) pdf_content)
  /\ (50000 < Z.of_nat (String.length pdf_content) ->
      Z.of_nat (String.length (truncated_content pdf_content)) = 50000
      /\ exists rest,
           pdf_content = truncated_content pdf_content ++ rest
           /\ rest <> EmptyString).
Proof.
  split; [reflexivity|].
  split; [apply contains_middle|].
  split.
  - intros Hlen.
    assert (Heq : truncated_content pdf_content = pdf_content)
      by (apply substring_0_short; unfold cap; lia).
    split; [exact Heq|].
    unfold full_prompt. rewrite Heq. apply contains_middle.
  - intros Hlen. unfold truncated_content.
    destruct (substring_0_prefix cap pdf_content) as (rest & Hs & Hl & Hr).
    split; [rewrite Hl; unfold cap; lia|].
    exists rest. split; [exact Hs|].
    intros ->. cbn in Hr. unfold cap in Hr. lia.
Qed.

(** C3 on a short document and on one of 60,000 characters. *)
Lemma prompt_excerpt_witness :
  (truncated_content "Alpha Beta" = "Alpha Beta"
   /\ contains (full_prompt "Summarize" "Alpha Beta") "Alpha Beta")
  /\ (Z.of_nat (String.length (truncated_content long_document)) = 50000
      /\ exists rest,
           long_document = truncated_content long_document ++ rest
           /\ rest <> EmptyString).
Proof.
  split.
  - apply (prompt_excerpt "Summarize" "Alpha Beta"). cbn. lia.
  - apply (prompt_excerpt "Summarize" long_document).
    unfold long_document. rewrite length_replicate. lia.
Defined.

(** The scenario of the specification: of a document of 60,000 characters
    the excerpt is the first 50,000. *)
Example excerpt_of_long_document :
  truncated_content long_document = replicate (Z.to_nat 50000) "x"%char.
Proof. apply String.eqb_eq. vm_compute. reflexivity. Qed.

End PromptFacts.

(** ** The retry loop *)

Module AnalyzerFacts.

Import Analyzer.

Lemma attempt_returns fp mr a w t :
  attempt_outcome w (length (calls w)) fp = Ok t ->
  attempt_body fp mr a w = (Ok (Some t), log_call fp w).
Proof.
  unfold attempt_outcome, attempt_body, try_except, bind, generate_content,
    response_text, ret.
  destruct (service w (length (calls w)) fp) as [r|e']; [|discriminate].
  intros ->. reflexivity.
Qed.

Lemma attempt_last_fails fp mr a w e :
  attempt_outcome w (length (calls w)) fp = Raise e ->
  a = mr - 1 ->
  attempt_body fp mr a w = (Ok (Some (error_prefix ++ exn_str e)), log_call fp w).
Proof.
  unfold attempt_outcome, attempt_body, try_except, bind, generate_content,
    response_text, ret.
  intros H ->. rewrite Z.eqb_refl.
  destruct (service w (length (calls w)) fp) as [r|e'].
  - rewrite H. reflexivity.
  - injection H as ->. reflexivity.
Qed.

Lemma attempt_fails_early fp mr a w e :
  attempt_outcome w (length (calls w)) fp = Raise e ->
  0 <= a -> a <> mr - 1 ->
  attempt_body fp mr a w = (Ok None, log_sleep (2 ^ a) (log_call fp w)).
Proof.
  unfold attempt_outcome, attempt_body, try_except, bind, generate_content,
    response_text, ret, time_sleep.
  intros H Ha Hne.
  assert (Hcmp : (a =? mr - 1) = false) by (apply Z.eqb_neq; exact Hne).
  assert (Hpow : (2 ^ a <? 0) = false)
    by (apply Z.ltb_ge; apply Z.pow_nonneg; lia).
  destruct (service w (length (calls w)) fp) as [r|e'].
  - rewrite H, Hcmp, Hpow. reflexivity.
  - rewrite Hcmp, Hpow. reflexivity.
Qed.

(** The loop from attempt [a] with [n] attempts left: it returns from inside,
    at the first attempt [k] that succeeds or at the last one. *)
Lemma loop_from fp mr :
  forall n a w,
    (0 < n)%nat -> Z.of_nat (a + n) = mr ->
    exists k s w',
      (k < n)%nat
      /\ for_in (map Z.of_nat (seq a n)) (attempt_body fp mr) w
         = (Ok (Some s), w')
      /\ service w' = service w
      /\ calls w' = (calls w ++ repeat fp (S k))%list
      /\ sleeps w' = (sleeps w ++ backoff a k)%list
      /\ (forall j, (j < k)%nat ->
            exists e, attempt_outcome w (length (calls w) + j) fp = Raise e)
      /\ (attempt_outcome w (length (calls w) + k) fp = Ok s
          \/ (k = n - 1)%nat
             /\ exists e,
                 attempt_outcome w (length (calls w) + k) fp = Raise e
                 /\ s = error_prefix ++ exn_str e).
Proof.
  induction n as [|n IH]; intros a w Hn Hmr; [lia|].
  cbn [seq map for_in]. unfold bind at 1.
  destruct (attempt_outcome w (length (calls w)) fp) as [t|e] eqn:Hout.
  - rewrite (attempt_returns _ _ _ _ _ Hout).
    exists 0%nat, t, (log_call fp w). rewrite Nat.add_0_r.
    split; [lia|]. split; [reflexivity|]. split; [reflexivity|].
    split; [reflexivity|].
    split; [unfold backoff; cbn; now rewrite app_nil_r|].
    split; [intros j Hj; lia|]. now left.
  - destruct n as [|n'].
    + rewrite (attempt_last_fails _ _ _ _ _ Hout) by lia.
      exists 0%nat, (error_prefix ++ exn_str e), (log_call fp w).
      rewrite Nat.add_0_r.
      split; [lia|]. split; [reflexivity|]. split; [reflexivity|].
      split; [reflexivity|].
      split; [unfold backoff; cbn; now rewrite app_nil_r|].
      split; [intros j Hj; lia|].
      right. split; [reflexivity|]. now exists e.
    + rewrite (attempt_fails_early _ _ _ _ _ Hout) by lia.
      destruct (IH (S a) (log_sleep (2 ^ Z.of_nat a) (log_call fp w)))
        as (k & s & w' & Hk & Hrun & Hsvc & Hcalls & Hsleeps & Hbefore & Hat);
        [lia|lia|].
      assert (Hlen : forall j,
                 attempt_outcome (log_sleep (2 ^ Z.of_nat a) (log_call fp w))
                   (length (calls (log_sleep (2 ^ Z.of_nat a) (log_call fp w))) + j) fp
                 = attempt_outcome w (length (calls w) + S j) fp).
      { intros j. unfold attempt_outcome. cbn.
        rewrite length_app. cbn.
        replace (length (calls w) + 1 + j)%nat with (length (calls w) + S j)%nat by lia.
        reflexivity. }
      exists (S k), s, w'.
      split; [lia|]. split; [exact Hrun|]. split; [exact Hsvc|].
      split.
      { rewrite Hcalls. cbn. rewrite <- app_assoc. reflexivity. }
      split.
      { rewrite Hsleeps. cbn. unfold backoff. cbn [seq map].
        rewrite <- app_assoc. reflexivity. }
      split.
      { intros [|j] Hj.
        - exists e. now rewrite Nat.add_0_r.
        - destruct (Hbefore j) as [e' He']; [lia|].
          exists e'. now rewrite <- Hlen. }
      rewrite Hlen in Hat.
      destruct Hat as [Hok | (Hlast & e' & He' & Hs)].
      * now left.
      * right. split; [lia|]. exists e'. now split.
Qed.

(** Exhaustion: when every one of the [mr] attempts raises, the loop returns
    the error string of the last one after [mr] requests. *)
Lemma retry_exhausted fp mr w (e : nat -> exn) :
  1 <= mr ->
  (forall j, (j < Z.to_nat mr)%nat ->
     attempt_outcome w (length (calls w) + j) fp = Raise (e j)) ->
  exists w',
    retry_loop fp mr w
    = (Ok (Some (error_prefix ++ exn_str (e (Z.to_nat mr - 1)%nat))), w')
    /\ calls w' = (calls w ++ repeat fp (Z.to_nat mr))%list
    /\ sleeps w' = (sleeps w ++ backoff 0 (Z.to_nat mr - 1))%list.
Proof.
  intros Hmr Hall.
  destruct (loop_from fp mr (Z.to_nat mr) 0%nat w)
    as (k & s & w' & Hk & Hrun & _ & Hcalls & Hsleeps & _ & Hat); [lia|lia|].
  destruct Hat as [Hok | (Hlast & e' & He' & Hs)].
  - rewrite (Hall k Hk) in Hok. discriminate.
  - rewrite (Hall k Hk) in He'. injection He' as <-.
    exists w'. subst k s. unfold retry_loop, range.
    split; [exact Hrun|]. split; [|exact Hsleeps].
    rewrite Hcalls. f_equal. f_equal. lia.
Qed.

(** First success: when attempts [0 .. K-1] raise and attempt [K] answers
    [t], the loop returns [t] after [K+1] requests. *)
Lemma retry_succeeds_at fp mr w (K : nat) t :
  Z.of_nat K < mr ->
  (forall j, (j < K)%nat ->
     exists e, attempt_outcome w (length (calls w) + j) fp = Raise e) ->
  attempt_outcome w (length (calls w) + K) fp = Ok t ->
  exists w',
    retry_loop fp mr w = (Ok (Some t), w')
    /\ calls w' = (calls w ++ repeat fp (S K))%list
    /\ sleeps w' = (sleeps w ++ backoff 0 K)%list.
Proof.
  intros HK Hfail Hok.
  destruct (loop_from fp mr (Z.to_nat mr) 0%nat w)
    as (k & s & w' & Hk & Hrun & _ & Hcalls & Hsleeps & Hbefore & Hat); [lia|lia|].
  assert (k = K) as ->.
  { destruct (Nat.lt_trichotomy k K) as [Hlt | [Heq | Hgt]]; [|exact Heq|].
    - destruct (Hfail k Hlt) as [e He].
      destruct Hat as [Hs | (Hlast & _)]; [congruence | lia].
    - destruct (Hbefore K Hgt) as [e He]. congruence. }
  exists w'. unfold retry_loop, range.
  destruct Hat as [Hs | (_ & e & He & _)]; [|congruence].
  assert (s = t) as -> by congruence.
  now repeat split.
Qed.

(** C1: when the remote call raises on each of the three attempts of the
    default configuration, [generate_content_with_retry] returns (it does
    not raise) the string "Error processing request: " followed by the
    message of the third failure, having sent exactly three requests, each
    carrying the composed prompt, and slept 1 and 2 seconds in between. *)
Theorem retry_all_fail_returns_error
  (prompt pdf_content : string) (w : World) (e : nat -> exn) :
  (forall j, (j < 3)%nat ->
     attempt_outcome w (length (calls w) + j) (full_prompt prompt pdf_content)
     = Raise (e j)) ->
  exists w',
    generate_content_with_retry prompt pdf_content default_max_retries w
    = (Ok ("Error processing request: " ++ exn_str (e 2%nat)), w')
    /\ calls w'
       = (calls w ++ repeat (full_prompt prompt pdf_content) 3)%list
    /\ length (calls w') = (length (calls w) + 3)%nat
    /\ sleeps w' = (sleeps w ++ [1; 2])%list.
Proof.
  intros Hall.
  destruct (retry_exhausted (full_prompt prompt pdf_content)
              default_max_retries w e)
    as (w' & Hrun & Hcalls & Hsleeps).
  - unfold default_max_retries. lia.
  - exact Hall.
  - exists w'. unfold generate_content_with_retry, bind. rewrite Hrun.
    split; [reflexivity|]. split; [exact Hcalls|].
    split; [|exact Hsleeps].
    rewrite Hcalls, length_app, repeat_length. reflexivity.
Qed.

(** C1 on a service that is down: three requests, then the error string. *)
Lemma retry_all_fail_returns_error_witness :
  exists w',
    generate_content_with_retry "Summarize" "Alpha Beta" default_max_retries down
    = (Ok ("Error processing request: " ++ exn_str boom), w')
    /\ calls w' = ([] ++ repeat (full_prompt "Summarize" "Alpha Beta") 3)%list
    /\ length (calls w') = 3%nat
    /\ sleeps w' = ([] ++ [1; 2])%list.
Proof.
  apply (retry_all_fail_returns_error "Summarize" "Alpha Beta" down
           (fun _ => boom)).
  intros j Hj. reflexivity.
Defined.

(** C2: when the remote call fails on attempts 0 .. K-1 and succeeds on
    attempt K, with 0 <= K < max_retries, [generate_content_with_retry]
    returns the text of the successful response and has sent exactly K+1
    requests. *)
Theorem retry_fail_K_then_succeed
  (prompt pdf_content : string) (max_retries : Z) (w : World)
  (K : nat) (t : string) :
  0 <= Z.of_nat K < max_retries ->
  (forall j, (j < K)%nat ->
     exists e,
       attempt_outcome w (length (calls w) + j) (full_prompt prompt pdf_content)
       = Raise e) ->
  attempt_outcome w (length (calls w) + K) (full_prompt prompt pdf_content)
  = Ok t ->
  exists w',
    generate_content_with_retry prompt pdf_content max_retries w = (Ok t, w')
    /\ calls w'
       = (calls w ++ repeat (full_prompt prompt pdf_content) (S K))%list
    /\ length (calls w') = (length (calls w) + (K + 1))%nat
    /\ sleeps w' = (sleeps w ++ backoff 0 K)%list.
Proof.
  intros [_ HK] Hfail Hok.
  destruct (retry_succeeds_at _ max_retries w K t HK Hfail Hok)
    as (w' & Hrun & Hcalls & Hsleeps).
  exists w'. unfold generate_content_with_retry, bind. rewrite Hrun.
  split; [reflexivity|]. split; [exact Hcalls|]. split; [|exact Hsleeps].
  rewrite Hcalls, length_app, repeat_length. lia.
Qed.

(** C2 on the scenario of the specification: attempts 1 and 2 raise, attempt
    3 succeeds; three requests and two backoff sleeps. *)
Lemma retry_fail_K_then_succeed_witness :
  exists w',
    generate_content_with_retry "Summarize" "Alpha Beta" 3 (flaky 2 "A summary.")
    = (Ok "A summary.", w')
    /\ calls w' = ([] ++ repeat (full_prompt "Summarize" "Alpha Beta") 3)%list
    /\ length (calls w') = 3%nat
    /\ sleeps w' = ([] ++ backoff 0 2)%list.
Proof.
  apply (retry_fail_K_then_succeed "Summarize" "Alpha Beta" 3
           (flaky 2 "A summary.") 2 "A summary.").
  - lia.
  - intros j Hj. exists boom.
    destruct j as [|[|j]]; [reflexivity|reflexivity|lia].
  - reflexivity.
Defined.

(** C10: whenever max_retries >= 1 the function returns from inside the
    loop: the loop never runs to completion (so the trailing
    "Unable to process request" is not reached) and never raises, and the
    value returned is the text of the response to the last request sent or
    "Error processing request: " followed by the message of the exception
    that request raised. *)
Theorem retry_returns_inside_loop
  (prompt pdf_content : string) (max_retries : Z) (w : World) :
  1 <= max_retries ->
  exists s w' k,
    retry_loop (full_prompt prompt pdf_content) max_retries w
    = (Ok (Some s), w')
    /\ generate_content_with_retry prompt pdf_content max_retries w = (Ok s, w')
    /\ calls w'
       = (calls w ++ repeat (full_prompt prompt pdf_content) (S k))%list
    /\ (attempt_outcome w (length (calls w) + k)
          (full_prompt prompt pdf_content) = Ok s
        \/ exists e,
             attempt_outcome w (length (calls w) + k)
               (full_prompt prompt pdf_content) = Raise e
             /\ s = "Error processing request: " ++ exn_str e).
Proof.
  intros Hmr.
  destruct (loop_from (full_prompt prompt pdf_content) max_retries
              (Z.to_nat max_retries) 0%nat w)
    as (k & s & w' & Hk & Hrun & _ & Hcalls & _ & _ & Hat); [lia|lia|].
  exists s, w', k. unfold generate_content_with_retry, bind, retry_loop, range.
  rewrite Hrun.
  split; [reflexivity|]. split; [reflexivity|]. split; [exact Hcalls|].
  destruct Hat as [Hok | (_ & e & He & Hs)]; [now left|].
  right. now exists e.
Qed.

(** C10 with a single attempt against a service that is down. *)
Lemma retry_returns_inside_loop_witness :
  exists s w' k,
    retry_loop (full_prompt "Summarize" "Alpha Beta") 1 down = (Ok (Some s), w')
    /\ generate_content_with_retry "Summarize" "Alpha Beta" 1 down = (Ok s, w')
    /\ calls w'
       = (calls down ++ repeat (full_prompt "Summarize" "Alpha Beta") (S k))%list
    /\ (attempt_outcome down (length (calls down) + k)
          (full_prompt "Summarize" "Alpha Beta") = Ok s
        \/ exists e,
             attempt_outcome down (length (calls down) + k)
               (full_prompt "Summarize" "Alpha Beta") = Raise e
             /\ s = "Error processing request: " ++ exn_str e).
Proof.
  apply (retry_returns_inside_loop "Summarize" "Alpha Beta" 1 down). lia.
Defined.

(** With the default three attempts the function always returns. *)
Lemma default_retry_always_returns prompt pdf_content w :
  exists s w',
    generate_content_with_retry prompt pdf_content default_max_retries w
    = (Ok s, w').
Proof.
  destruct (loop_from (full_prompt prompt pdf_content) default_max_retries
              (Z.to_nat default_max_retries) 0%nat w)
    as (k & s & w' & _ & Hrun & _); [cbn; lia | reflexivity |].
  exists s, w'. unfold generate_content_with_retry, bind, retry_loop, range.
  now rewrite Hrun.
Qed.

(** With no attempt to make, the loop body never runs and the fallback is
    what the caller gets. *)
Lemma retry_without_attempts prompt pdf_content max_retries w :
  max_retries <= 0 ->
  generate_content_with_retry prompt pdf_content max_retries w
  = (Ok "Unable to process request", w).
Proof.
  intros H. unfold generate_content_with_retry, retry_loop, range, bind.
  replace (Z.to_nat max_retries) with 0%nat by lia. reflexivity.
Qed.

End AnalyzerFacts.

(** ** The page store *)

Module StoreFacts.

Import Store.

Lemma append_nil_r (s : string) : s ++ EmptyString = s.
Proof. induction s; cbn; congruence. Qed.

Lemma append_assoc (a b c : string) : (a ++ b) ++ c = a ++ b ++ c.
Proof. induction a; cbn; congruence. Qed.

Lemma skipn_cons_nth {A} : forall (l : list A) (a : nat) (x : A),
  nth_error l a = Some x -> skipn a l = x :: skipn (S a) l.
Proof.
  induction l as [|y l IH]; intros [|a] x H; cbn in *; try discriminate.
  - now injection H as ->.
  - now apply IH.
Qed.

Lemma pages_getitem_nth ps (a : nat) db :
  pages_getitem ps (Z.of_nat a) db
  = (match nth_error ps a with
     | Some p => Ok p
     | None => Raise (mkExn "IndexError" "sequence index out of range")
     end, db).
Proof.
  unfold pages_getitem.
  replace (Z.of_nat a <? 0) with false by (symmetry; apply Z.ltb_ge; lia).
  rewrite Nat2Z.id. now destruct (nth_error ps a).
Qed.

(** The loop from page [a] with [n] pages left: it writes one pending row per
    page that extracts, in order, and stops at the first page that raises. *)
Lemma extract_loop fname ps :
  forall n a db extracted_data full_text,
    (a + n = length ps)%nat ->
    for_each (map Z.of_nat (seq a n)) (extract_body fname ps)
      (extracted_data, full_text) db
    = (match snd (leading_texts (skipn a ps)) with
       | None =>
           Ok ((extracted_data
                ++ page_dicts fname (Z.of_nat a) (fst (leading_texts (skipn a ps))))%list,
               full_text ++ terminated (fst (leading_texts (skipn a ps))))
       | Some e => Raise e
       end,
       {| committed := committed db;
          pending :=
            (pending db
             ++ page_rows fname (Z.of_nat a) (fst (leading_texts (skipn a ps)))
                  (table db))%list |}).
Proof.
  induction n as [|n IH]; intros a db ed ft Hlen.
  - rewrite skipn_all2 by lia. cbn. unfold ret.
    rewrite !app_nil_r, append_nil_r. now destruct db.
  - destruct (nth_error ps a) as [p|] eqn:Hnth;
      [|apply nth_error_None in Hnth; lia].
    rewrite (skipn_cons_nth _ _ _ Hnth).
    cbn [seq map for_each]. unfold bind at 1.
    unfold extract_body. unfold bind at 1. rewrite pages_getitem_nth, Hnth.
    unfold bind at 1. unfold extract_text.
    destruct p as [t|e]; cbn [leading_texts].
    + unfold bind at 1. cbn [cursor_execute_insert ret].
      rewrite IH by lia.
      destruct (leading_texts (skipn (S a) ps)) as [ts oe]. cbn [fst snd].
      cbn [committed pending page_rows page_dicts terminated].
      replace (Z.of_nat (S a)) with (Z.of_nat a + 1) by lia.
      f_equal.
      * destruct oe; [reflexivity|].
        rewrite <- app_assoc, append_assoc. reflexivity.
      * f_equal. rewrite <- app_assoc. cbn [app]. f_equal. f_equal.
        unfold table. cbn [committed pending]. now rewrite app_assoc.
    + cbn. now rewrite app_nil_r; destruct db.
Qed.

(** What one call does to the connection, in every case. *)
Lemma extract_pdf_data_run (f : UploadedFile) (db : DB) :
  extract_pdf_data f db
  = match pages f with
    | Raise e => (Raise e, db)
    | Ok ps =>
        match snd (leading_texts ps) with
        | None =>
            (Ok (page_dicts (name f) 0 (fst (leading_texts ps)),
                 terminated (fst (leading_texts ps))),
             {| committed :=
                  (table db
                   ++ page_rows (name f) 0 (fst (leading_texts ps)) (table db))%list;
                pending := [] |})
        | Some e =>
            (Raise e,
             {| committed := committed db;
                pending :=
                  (pending db
                   ++ page_rows (name f) 0 (fst (leading_texts ps)) (table db))%list |})
        end
    end.
Proof.
  unfold extract_pdf_data, bind at 1, PdfReader.
  destruct (pages f) as [ps|e]; [|reflexivity].
  unfold bind at 1, range. rewrite Nat2Z.id.
  rewrite (extract_loop (name f) ps (length ps) 0 db [] EmptyString) by lia.
  cbn [skipn Z.of_nat].
  destruct (snd (leading_texts ps)); [reflexivity|].
  unfold bind, conn_commit, ret. cbn [committed pending app append].
  unfold table. now rewrite app_assoc.
Qed.

Lemma leading_texts_readable texts :
  leading_texts (map Ok texts) = (texts, None).
Proof.
  induction texts as [|t ts IH]; cbn; [reflexivity|]. now rewrite IH.
Qed.

(** A file whose pages all extract: every page is recorded and committed. *)
Lemma extract_pdf_data_readable fname texts db :
  extract_pdf_data (readable fname texts) db
  = (Ok (page_dicts fname 0 texts, terminated texts),
     {| committed := (table db ++ page_rows fname 0 texts (table db))%list;
        pending := [] |}).
Proof.
  rewrite extract_pdf_data_run. cbn [readable pages name].
  now rewrite leading_texts_readable.
Qed.

Lemma upload_table (f : UploadedFile) (db : DB) :
  table (snd (upload f db))
  = (table db ++ page_rows (name f) 0 (recorded_texts f) (table db))%list.
Proof.
  unfold upload, try_except, bind at 1. rewrite extract_pdf_data_run.
  unfold recorded_texts.
  destruct (pages f) as [ps|e]; cbn.
  - destruct (snd (leading_texts ps)); cbn; unfold table; cbn.
    + now rewrite app_assoc.
    + now rewrite app_nil_r.
  - now rewrite app_nil_r.
Qed.

Lemma page_rows_content fname : forall texts first rows,
  map content (page_rows fname first texts rows) = texts.
Proof.
  induction texts as [|t ts IH]; intros first rows; cbn; [reflexivity|].
  now rewrite IH.
Qed.

Lemma page_rows_filename fname : forall texts first rows,
  map filename (page_rows fname first texts rows)
  = repeat fname (length texts).
Proof.
  induction texts as [|t ts IH]; intros first rows; cbn; [reflexivity|].
  now rewrite IH.
Qed.

Lemma page_rows_page_number fname : forall texts first rows,
  map page_number (page_rows fname first texts rows)
  = map (fun i => first + Z.of_nat i + 1) (seq 0 (length texts)).
Proof.
  induction texts as [|t ts IH]; intros first rows; cbn [page_rows map length seq].
  - reflexivity.
  - rewrite IH. cbn [page_number]. f_equal; [cbn; lia|].
    rewrite <- seq_shift, map_map. apply map_ext. intros i. lia.
Qed.

Lemma page_rows_length fname texts first rows :
  length (page_rows fname first texts rows) = length texts.
Proof.
  rewrite <- (length_map content), page_rows_content. reflexivity.
Qed.

Lemma page_rows_In fname : forall texts first rows r,
  In r (page_rows fname first texts rows) ->
  exists i,
    nth_error texts i = Some (content r)
    /\ page_number r = first + Z.of_nat i + 1
    /\ filename r = fname.
Proof.
  induction texts as [|t ts IH]; intros first rows r Hin; cbn in Hin.
  - contradiction.
  - destruct Hin as [<- | Hin].
    + exists 0%nat. cbn. repeat split. lia.
    + destruct (IH _ _ _ Hin) as (i & Hnth & Hpn & Hfn).
      exists (S i). cbn [nth_error]. repeat split; [exact Hnth|lia|exact Hfn].
Qed.

Lemma leading_texts_nth : forall ps i t,
  nth_error (fst (leading_texts ps)) i = Some t ->
  nth_error ps i = Some (Ok t).
Proof.
  induction ps as [|[t0|e] ps IH]; intros i t H; cbn in *.
  - destruct i; discriminate.
  - destruct (leading_texts ps) as [ts oe]. cbn in *.
    destruct i as [|i]; cbn in *; [congruence|]. now apply IH.
  - destruct i; discriminate.
Qed.

Lemma recorded_texts_page f i t :
  nth_error (recorded_texts f) i = Some t -> page_text_at f i = Some t.
Proof.
  unfold recorded_texts, page_text_at.
  destruct (pages f) as [ps|e].
  - intros H. now rewrite (leading_texts_nth _ _ _ H).
  - destruct i; discriminate.
Qed.

(** Every row a sequence of uploads leaves in the table stems from a page of
    one of the uploaded files, provided the rows it started from did. *)
Lemma upload_all_origin (all : list UploadedFile) :
  forall files db,
    incl files all ->
    Forall (fun r => exists f i, In f all /\ stems_from r f i) (table db) ->
    Forall (fun r => exists f i, In f all /\ stems_from r f i)
      (table (snd (upload_all files db))).
Proof.
  induction files as [|f files IH]; intros db Hincl Hdb; [exact Hdb|].
  cbn [upload_all]. unfold bind.
  destruct (upload f db) as [[[]|e] db1] eqn:Hup.
  - apply IH; [intros x Hx; apply Hincl; now right|].
    replace db1 with (snd (upload f db)) by now rewrite Hup.
    rewrite upload_table. apply Forall_app. split; [exact Hdb|].
    apply Forall_forall. intros r Hr.
    destruct (page_rows_In _ _ _ _ _ Hr) as (i & Hnth & Hpn & Hfn).
    exists f, i. split; [apply Hincl; now left|].
    repeat split; [exact Hfn | now apply recorded_texts_page | lia].
  - exfalso. revert Hup. unfold upload, try_except, bind, ret.
    destruct (extract_pdf_data f db) as [[?|?] ?]; discriminate.
Qed.

Lemma join_contains sep : forall parts t,
  In t parts -> contains (join sep parts) t.
Proof.
  induction parts as [|p rest IH]; intros t Hin; [contradiction|].
  destruct Hin as [<- | Hin].
  - destruct rest as [|q rest].
    + exists EmptyString, EmptyString. cbn. now rewrite append_nil_r.
    + exists EmptyString, (sep ++ join sep (q :: rest)). reflexivity.
  - destruct rest as [|q rest]; [contradiction|].
    destruct (IH t Hin) as (b & a & Heq).
    exists (p ++ sep ++ b), a.
    change (join sep (p :: q :: rest)) with (p ++ sep ++ join sep (q :: rest)).
    now rewrite Heq, !append_assoc.
Qed.

Lemma terminated_join : forall texts,
  texts <> [] -> terminated texts = join (LF ++ LF) texts ++ LF ++ LF.
Proof.
  induction texts as [|t rest IH]; intros Hne; [contradiction|].
  destruct rest as [|q rest].
  - cbn [terminated join]. now rewrite append_nil_r.
  - change (terminated (t :: q :: rest))
      with ((t ++ LF ++ LF) ++ terminated (q :: rest)).
    rewrite IH by discriminate.
    change (join (LF ++ LF) (t :: q :: rest))
      with (t ++ (LF ++ LF) ++ join (LF ++ LF) (q :: rest)).
    now rewrite !append_assoc.
Qed.

(** The contents on file after uploading readable documents one by one. *)
Lemma upload_all_readable_contents :
  forall (docs : list (string * list string)) db,
    map content
      (table (snd (upload_all (map (fun d => readable (fst d) (snd d)) docs) db)))
    = (map content (table db) ++ concat (map snd docs))%list.
Proof.
  induction docs as [|[fname texts] docs IH]; intros db; cbn [map upload_all concat].
  - cbn. now rewrite app_nil_r.
  - unfold bind. cbn [fst snd].
    destruct (upload (readable fname texts) db) as [[[]|e] db1] eqn:Hup.
    + rewrite IH.
      replace db1 with (snd (upload (readable fname texts) db)) by now rewrite Hup.
      rewrite upload_table, map_app, page_rows_content.
      unfold recorded_texts. cbn [readable pages].
      rewrite leading_texts_readable. cbn [fst]. now rewrite app_assoc.
    + exfalso. revert Hup. unfold upload, try_except, bind, ret.
      destruct (extract_pdf_data (readable fname texts) db) as [[?|?] ?];
        discriminate.
Qed.

(** C5, as the code has it: extraction and persistence are one operation.
    For a file whose pages all extract to [texts], [extract_pdf_data] returns
    the page dicts and the full text and, by itself, adds one record per page
    to the table and commits: the committed rows become everything the
    connection saw before followed by the new records, whose contents are
    [texts] in order, and nothing is left pending. *)
Theorem extraction_persists_pages (fname : string) (texts : list string) (db : DB) :
  exists rows,
    extract_pdf_data (readable fname texts) db
    = (Ok (page_dicts fname 0 texts, terminated texts),
       {| committed := (table db ++ rows)%list; pending := [] |})
    /\ length rows = length texts
    /\ map content rows = texts
    /\ map filename rows = repeat fname (length texts).
Proof.
  exists (page_rows fname 0 texts (table db)).
  split; [apply extract_pdf_data_readable|].
  split; [apply page_rows_length|].
  split; [apply page_rows_content | apply page_rows_filename].
Qed.

(** C5, counterexample: extraction is not free of effects on the store.
    Extracting the two-page file on an empty store leaves two committed page
    records behind. *)
Lemma extraction_changes_store :
  snd (extract_pdf_data alpha_beta (connect []))
  = {| committed :=
         [ {| id := 1; filename := "report.pdf"; page_number := 1;
              content := "Alpha" |};
           {| id := 2; filename := "report.pdf"; page_number := 2;
              content := "Beta" |} ];
       pending := [] |}
  /\ snd (extract_pdf_data alpha_beta (connect [])) <> connect [].
Proof.
  split; [reflexivity|]. intros H. discriminate H.
Qed.

(** Within one call the committed rows change only on success: when the
    call raises, they are what they were, and the rows written before the
    failure stay in the connection's open transaction. *)
Lemma failed_extract_keeps_committed (f : UploadedFile) (db : DB) (e : exn) :
  fst (extract_pdf_data f db) = Raise e ->
  committed (snd (extract_pdf_data f db)) = committed db
  /\ pending (snd (extract_pdf_data f db))
     = (pending db ++ page_rows (name f) 0 (recorded_texts f) (table db))%list.
Proof.
  rewrite extract_pdf_data_run. unfold recorded_texts.
  destruct (pages f) as [ps|e0]; cbn.
  - destruct (snd (leading_texts ps)); cbn; [|discriminate].
    intros _. now split.
  - intros _. now rewrite app_nil_r.
Qed.

(** A manager kept in use after a failed upload, which [main] never does:
    the upload of [broken] fails at its second page, after the INSERT of the
    first. No rollback follows, so that manager's own read returns the page,
    and the commit of a further upload through it would make the page
    durable. *)
Example reused_manager_keeps_pending_rows :
  fst (extract_pdf_data broken (connect []))
  = Raise (mkExn "PdfReadError" "Unexpected end of stream")
  /\ pending (snd (extract_pdf_data broken (connect [])))
     = [ {| id := 1; filename := "broken.pdf"; page_number := 1;
            content := "Alpha" |} ]
  /\ fst (get_pdf_content (snd (upload broken (connect [])))) = Ok "Alpha"
  /\ committed (snd (upload_all [broken; gamma] (connect [])))
     = [ {| id := 1; filename := "broken.pdf"; page_number := 1;
            content := "Alpha" |};
         {| id := 2; filename := "notes.pdf"; page_number := 1;
            content := "Gamma" |} ].
Proof. repeat split. Qed.

(** C7: after any sequence of documents has been uploaded to an empty
    store, [get_pdf_content] returns the texts of all their pages, in the
    order they were inserted, joined by single spaces, and leaves the store as
    it is; every one of those texts (the empty ones too) occurs in the
    result; on an empty store the result is the empty string. *)
Theorem get_pdf_content_joins_pages (docs : list (string * list string)) :
  get_pdf_content
    (snd (upload_all (map (fun d => readable (fst d) (snd d)) docs) (connect [])))
  = (Ok (join " " (concat (map snd docs))),
     snd (upload_all (map (fun d => readable (fst d) (snd d)) docs) (connect [])))
  /\ Forall (fun t => contains (join " " (concat (map snd docs))) t)
       (concat (map snd docs))
  /\ get_pdf_content (connect []) = (Ok EmptyString, connect []).
Proof.
  split.
  - unfold get_pdf_content, bind, select_content, ret.
    now rewrite upload_all_readable_contents.
  - split; [|reflexivity].
    apply Forall_forall. intros t Ht. now apply join_contains.
Qed.

(** The scenario of the specification: pages "Alpha" and "Beta" read back as
    "Alpha Beta". *)
Example alpha_beta_reads_back :
  fst (get_pdf_content (snd (upload alpha_beta (connect [])))) = Ok "Alpha Beta".
Proof. reflexivity. Qed.

(** Whatever the table holds, the read is the space-joined contents in table
    order, and it writes nothing. *)
Lemma get_pdf_content_run (db : DB) :
  get_pdf_content db = (Ok (join " " (map content (table db))), db).
Proof. reflexivity. Qed.

(** C8, as the code has it: the full text is every page text followed by a
    blank line, in document order. For a document with at least one page
    that is the texts joined by blank lines plus one trailing blank line;
    for a document without pages it is empty. *)
Theorem full_text_terminates_pages (fname : string) (texts : list string) (db : DB) :
  fst (extract_pdf_data (readable fname texts) db)
  = Ok (page_dicts fname 0 texts, terminated texts)
  /\ terminated texts
     = match texts with
       | [] => EmptyString
       | _ :: _ => join (LF ++ LF) texts ++ LF ++ LF
       end.
Proof.
  split; [now rewrite extract_pdf_data_readable|].
  destruct texts as [|t rest]; [reflexivity|].
  now apply terminated_join.
Qed.

(** C8, counterexample: the full text is not the join of the page texts.
    That of the one-page file ends in a blank line which the join of its
    page texts does not have. *)
Lemma full_text_is_not_join :
  fst (extract_pdf_data gamma (connect []))
  = Ok ([ {| d_filename := "notes.pdf"; d_page_number := 1;
             d_content := "Gamma" |} ],
        "Gamma" ++ LF ++ LF)
  /\ "Gamma" ++ LF ++ LF <> join (LF ++ LF) ["Gamma"].
Proof.
  split; [reflexivity|]. intros H. discriminate H.
Qed.

(** C9: after any sequence of uploads to an empty store, whether they
    succeed or fail, every record in the table stems from a page of one of
    the uploaded files, carries that file's name and that page's text, and
    its page_number is the page's 1-based position in the file.
    Conversely each upload appends, in document order, one record per page it
    gets to extract, numbered 1, 2, ... *)
Theorem page_number_is_position (files : list UploadedFile) :
  Forall (fun r => exists f i, In f files /\ stems_from r f i)
    (table (snd (upload_all files (connect []))))
  /\ forall (f : UploadedFile) (db : DB),
       exists rows,
         table (snd (upload f db)) = (table db ++ rows)%list
         /\ map content rows = recorded_texts f
         /\ map page_number rows
            = map (fun i => Z.of_nat i + 1) (seq 0 (length (recorded_texts f))).
Proof.
  split.
  - apply upload_all_origin; [apply incl_refl | constructor].
  - intros f db.
    exists (page_rows (name f) 0 (recorded_texts f) (table db)).
    split; [apply upload_table|].
    split; [apply page_rows_content|].
    now rewrite page_rows_page_number.
Qed.

(** The scenario of the specification: the store holds page 1 "Alpha" and
    page 2 "Beta". *)
Example alpha_beta_page_numbers :
  map (fun r => (page_number r, content r))
    (table (snd (upload alpha_beta (connect []))))
  = [(1, "Alpha"); (2, "Beta")].
Proof. reflexivity. Qed.

End StoreFacts.

(** ** The predefined analysis types *)

Module ShellFacts.

Import Analyzer Shell.

(** C4 on the code: for each of the four predefined analysis types the
    branch looks up [analyze_pdf_content], which the class does not define.
    The lookup raises [AttributeError] before any request is sent: no result
    string is produced, no retry takes place, and what the shell displays is
    the error box of the enclosing handler of [main]. *)
Theorem predefined_intent_raises (custom_prompt full_text : string) (w : World) :
  Forall
    (fun analysis_type =>
       analyze analysis_type custom_prompt full_text w
       = (Raise (mkExn "AttributeError" no_analyze_pdf_content), w)
       /\ on_analyze analysis_type custom_prompt full_text w
          = (Ok (st_error ("Error processing PDF: " ++ no_analyze_pdf_content)), w))
    predefined_options.
Proof. repeat constructor. Qed.

(** The free-form mode, by contrast, reaches the retry loop and displays
    what it returns. *)
Lemma custom_analysis_displays_result custom_prompt full_text w :
  custom_prompt <> EmptyString ->
  exists s w',
    on_analyze "Custom Analysis" custom_prompt full_text w
    = (Ok (st_results "Custom Analysis" s), w').
Proof.
  intros Hne.
  destruct (AnalyzerFacts.default_retry_always_returns custom_prompt full_text w)
    as (s & w' & Hrun).
  exists s, w'.
  unfold on_analyze, try_except, analyze.
  apply String.eqb_neq in Hne. rewrite Hne. cbn.
  unfold bind. cbn. unfold bind. cbn in Hrun. rewrite Hrun. reflexivity.
Qed.

End ShellFacts.

(** ** The retry loop: effort, backoff and the reach of the cap *)

Module RetryFacts.

Import Analyzer.


(** The loop stops at the first attempt that succeeds: every request in
    front of the last one sent has raised. *)
Theorem retry_stops_at_first_success (prompt pdf_content : string)
  (max_retries : Z) (w : World) :
  exists s w' n,
    generate_content_with_retry prompt pdf_content max_retries w = (Ok s, w')
    /\ calls w' = (calls w ++ repeat (full_prompt prompt pdf_content) n)%list
    /\ Forall
         (fun j =>
            exists e,
              attempt_outcome w (length (calls w) + j)
                (full_prompt prompt pdf_content) = Raise e)
         (seq 0 (n - 1)).
Proof.
  destruct (Z_le_gt_dec max_retries 0) as [Hle | Hgt].
  - exists "Unable to process request", w, 0%nat.
    rewrite AnalyzerFacts.retry_without_attempts by exact Hle.
    cbn. rewrite app_nil_r. repeat split. constructor.
  - destruct (AnalyzerFacts.loop_from (full_prompt prompt pdf_content)
                max_retries (Z.to_nat max_retries) 0%nat w)
      as (k & s & w' & Hk & Hrun & _ & Hcalls & _ & Hbefore & _); [lia|lia|].
    exists s, w', (S k).
    unfold generate_content_with_retry, bind, retry_loop, range. rewrite Hrun.
    split; [reflexivity|]. split; [exact Hcalls|].
    apply Forall_forall. intros j Hj. apply in_seq in Hj.
    apply Hbefore. lia.
Qed.

(** Whatever the positive budget, when every attempt raises the call returns
    the error string built from the exception of the last attempt, the
    earlier ones being dropped, after exactly [max_retries] requests and
    [max_retries - 1] sleeps. *)
Theorem retry_exhausts_any_budget (prompt pdf_content : string)
  (max_retries : Z) (w : World) (e : nat -> exn) :
  1 <= max_retries ->
  (forall j, (j < Z.to_nat max_retries)%nat ->
     attempt_outcome w (length (calls w) + j) (full_prompt prompt pdf_content)
     = Raise (e j)) ->
  exists w',
    generate_content_with_retry prompt pdf_content max_retries w
    = (Ok ("Error processing request: "
           ++ exn_str (e (Z.to_nat max_retries - 1)%nat)), w')
    /\ length (calls w') = (length (calls w) + Z.to_nat max_retries)%nat
    /\ sleeps w' = (sleeps w ++ backoff 0 (Z.to_nat max_retries - 1))%list.
Proof.
  intros Hmr Hall.
  destruct (AnalyzerFacts.retry_exhausted _ max_retries w e Hmr Hall)
    as (w' & Hrun & Hcalls & Hsleeps).
  exists w'. unfold generate_content_with_retry, bind. rewrite Hrun.
  split; [reflexivity|]. split; [|exact Hsleeps].
  now rewrite Hcalls, length_app, repeat_length.
Qed.

Lemma retry_exhausts_any_budget_witness :
  exists w',
    generate_content_with_retry "Summarize" "Alpha Beta" 4
      (failing_with (fun n => replicate (S n) "!"%char))
    = (Ok "Error processing request: !!!!", w')
    /\ length (calls w') = 4%nat
    /\ sleeps w' = [1; 2; 4].
Proof.
  apply (retry_exhausts_any_budget "Summarize" "Alpha Beta" 4
           (failing_with (fun n => replicate (S n) "!"%char))
           (fun j => mkExn "RuntimeError" (replicate (S j) "!"%char))).
  - lia.
  - intros j Hj. reflexivity.
Defined.

(** A budget of zero or less: the loop body never runs, so the caller gets
    the fallback string although no request has been sent, none has failed
    and nothing has been slept. *)
Theorem retry_without_budget (prompt pdf_content : string) (max_retries : Z)
  (w : World) :
  max_retries <= 0 ->
  generate_content_with_retry prompt pdf_content max_retries w
  = (Ok "Unable to process request", w)
  /\ retry_loop (full_prompt prompt pdf_content) max_retries w = (Ok None, w).
Proof.
  intros H. split; [now apply AnalyzerFacts.retry_without_attempts|].
  unfold retry_loop, range. now replace (Z.to_nat max_retries) with 0%nat by lia.
Qed.

Lemma retry_without_budget_witness :
  generate_content_with_retry "Summarize" "Alpha Beta" (-2) down
  = (Ok "Unable to process request", down)
  /\ retry_loop (full_prompt "Summarize" "Alpha Beta") (-2) down = (Ok None, down).
Proof.
  apply (retry_without_budget "Summarize" "Alpha Beta" (-2) down). lia.
Defined.

Lemma total_sleep_app a b :
  total_sleep (a ++ b) = total_sleep a + total_sleep b.
Proof.
  unfold total_sleep.
  induction a as [|x a IH]; cbn [app fold_right]; [reflexivity|].
  rewrite IH. lia.
Qed.

(** Sleeping 1, 2, ..., 2^(k-1) seconds takes 2^k - 1 seconds. *)
Lemma total_backoff k : total_sleep (backoff 0 k) = 2 ^ Z.of_nat k - 1.
Proof.
  induction k as [|k IH]; [reflexivity|].
  unfold backoff in *. rewrite seq_S, map_app, total_sleep_app, IH.
  cbn [map total_sleep fold_right Nat.add].
  rewrite Nat2Z.inj_succ, Z.pow_succ_r by lia. lia.
Qed.

(** The time a call spends sleeping is 2^(n-1) - 1 seconds when it sends
    [n] requests, hence at most 2^(max_retries-1) - 1 seconds: 3 seconds
    with the default budget. *)
Theorem retry_sleep_is_bounded (prompt pdf_content : string)
  (max_retries : Z) (w : World) :
  1 <= max_retries ->
  exists s w' slept,
    generate_content_with_retry prompt pdf_content max_retries w = (Ok s, w')
    /\ sleeps w' = (sleeps w ++ slept)%list
    /\ Z.of_nat (length (calls w') - length (calls w)) = Z.of_nat (length slept) + 1
    /\ total_sleep slept = 2 ^ Z.of_nat (length slept) - 1
    /\ total_sleep slept <= 2 ^ (max_retries - 1) - 1.
Proof.
  intros Hmr.
  destruct (AnalyzerFacts.loop_from (full_prompt prompt pdf_content)
              max_retries (Z.to_nat max_retries) 0%nat w)
    as (k & s & w' & Hk & Hrun & _ & Hcalls & Hsleeps & _); [lia|lia|].
  exists s, w', (backoff 0 k).
  unfold generate_content_with_retry, bind, retry_loop, range. rewrite Hrun.
  assert (Hlen : length (backoff 0 k) = k)
    by (unfold backoff; now rewrite length_map, length_seq).
  split; [reflexivity|]. split; [exact Hsleeps|].
  split; [rewrite Hcalls, length_app, repeat_length, Hlen; lia|].
  rewrite Hlen, total_backoff. split; [reflexivity|].
  assert (2 ^ Z.of_nat k <= 2 ^ (max_retries - 1))
    by (apply Z.pow_le_mono_r; lia).
  lia.
Qed.

Lemma retry_sleep_is_bounded_witness :
  exists s w' slept,
    generate_content_with_retry "Summarize" "Alpha Beta" 3 down = (Ok s, w')
    /\ sleeps w' = (sleeps down ++ slept)%list
    /\ Z.of_nat (length (calls w') - length (calls down))
       = Z.of_nat (length slept) + 1
    /\ total_sleep slept = 2 ^ Z.of_nat (length slept) - 1
    /\ total_sleep slept <= 2 ^ (3 - 1) - 1.
Proof.
  apply (retry_sleep_is_bounded "Summarize" "Alpha Beta" 3 down). lia.
Defined.

Lemma length_append (a b : string) :
  String.length (a ++ b) = (String.length a + String.length b)%nat.
Proof. induction a; cbn; congruence. Qed.

Lemma substring_0_append n : forall d x,
  (n <= String.length d)%nat -> substring 0 n (d ++ x) = substring 0 n d.
Proof.
  induction n as [|n IH]; intros [|c d] x Hlen; cbn in *;
    try reflexivity; try lia.
  - now destruct x.
  - f_equal. apply IH. lia.
Qed.

(** Text beyond the cap has no influence: two documents that agree on a
    prefix of at least 50,000 characters give the same prompt, and the call
    behaves the same on both, whatever the service and the budget. *)
Theorem text_beyond_cap_is_ignored (prompt d x y : string)
  (max_retries : Z) (w : World) :
  50000 <= Z.of_nat (String.length d) ->
  full_prompt prompt (d ++ x) = full_prompt prompt (d ++ y)
  /\ generate_content_with_retry prompt (d ++ x) max_retries w
     = generate_content_with_retry prompt (d ++ y) max_retries w.
Proof.
  intros Hlen.
  assert (Hp : full_prompt prompt (d ++ x) = full_prompt prompt (d ++ y)).
  { unfold full_prompt, truncated_content.
    rewrite !substring_0_append by (unfold cap; lia). reflexivity. }
  split; [exact Hp|].
  unfold generate_content_with_retry. now rewrite Hp.
Qed.

Lemma text_beyond_cap_is_ignored_witness :
  full_prompt "Summarize" (long_document ++ "Alpha")
  = full_prompt "Summarize" (long_document ++ "Beta")
  /\ generate_content_with_retry "Summarize" (long_document ++ "Alpha") 3
       (flaky 1 "A summary.")
     = generate_content_with_retry "Summarize" (long_document ++ "Beta") 3
         (flaky 1 "A summary.").
Proof.
  apply (text_beyond_cap_is_ignored "Summarize" long_document "Alpha" "Beta"
           3 (flaky 1 "A summary.")).
  unfold long_document. rewrite PromptFacts.length_replicate. lia.
Defined.

(** The size of a request: 198 characters of framing, the instruction in
    full, and at most 50,000 characters of document. *)
Theorem prompt_length (prompt pdf_content : string) :
  Z.of_nat (String.length (full_prompt prompt pdf_content))
  = 198 + Z.of_nat (String.length prompt)
    + Z.min (Z.of_nat (String.length pdf_content)) 50000.
Proof.
  unfold full_prompt. rewrite !length_append.
  change (String.length prompt_head) with 39%nat.
  change (String.length prompt_middle) with 43%nat.
  change (String.length prompt_tail) with 116%nat.
  unfold truncated_content.
  destruct (PromptFacts.substring_0_prefix cap pdf_content)
    as (rest & _ & Hlen & _).
  rewrite Hlen. unfold cap. lia.
Qed.

End RetryFacts.

(** ** The page store: keys, return values, repeated and failed uploads *)

Module StoreInvariants.

Import Store.

Lemma max_id_bounds (rows : list Row) :
  0 <= fold_right (fun r m => Z.max (id r) m) 0 rows
  /\ Forall (fun r => id r <= fold_right (fun r m => Z.max (id r) m) 0 rows) rows.
Proof.
  induction rows as [|r rows [IH0 IH]]; cbn [fold_right].
  - split; [lia | constructor].
  - split; [lia|]. constructor; [lia|].
    eapply Forall_impl; [|exact IH]. intros a Ha. cbv beta in *. lia.
Qed.

(** A fresh key is positive and above every key in the table. *)
Lemma next_id_fresh (rows : list Row) :
  1 <= next_id rows /\ Forall (fun r => id r < next_id rows) rows.
Proof.
  destruct (max_id_bounds rows) as [H0 H]. unfold next_id.
  split; [lia|]. eapply Forall_impl; [|exact H].
  intros a Ha. cbv beta in *. lia.
Qed.

Lemma sorted_snoc (l : list Z) (x : Z) :
  StronglySorted Z.lt l -> Forall (fun y => y < x) l ->
  StronglySorted Z.lt (l ++ [x]).
Proof.
  induction 1 as [|y l Hs IH Hy]; intros Hlt; cbn.
  - repeat constructor.
  - inversion Hlt as [|? ? Hyx Hl]; subst.
    constructor; [now apply IH|].
    apply Forall_app. split; [exact Hy | repeat constructor; exact Hyx].
Qed.

Lemma sorted_NoDup (l : list Z) : StronglySorted Z.lt l -> NoDup l.
Proof.
  induction 1 as [|y l Hs IH Hy]; constructor; [|exact IH].
  intros Hin. rewrite Forall_forall in Hy. specialize (Hy y Hin). lia.
Qed.

Lemma page_rows_keys fname :
  forall texts first rows,
    StronglySorted Z.lt (map id rows) ->
    Forall (fun r => 1 <= id r) rows ->
    StronglySorted Z.lt (map id (rows ++ page_rows fname first texts rows))
    /\ Forall (fun r => 1 <= id r) (rows ++ page_rows fname first texts rows).
Proof.
  induction texts as [|t texts IH]; intros first rows Hs Hpos; cbn [page_rows].
  - now rewrite app_nil_r.
  - destruct (next_id_fresh rows) as [H1 Hfresh].
    set (r := {| id := next_id rows; filename := fname;
                 page_number := first + 1; content := t |}).
    replace (rows ++ r :: page_rows fname (first + 1) texts (rows ++ [r]))%list
      with ((rows ++ [r]) ++ page_rows fname (first + 1) texts (rows ++ [r]))%list
      by now rewrite <- app_assoc.
    apply IH.
    + rewrite map_app. cbn [map]. apply sorted_snoc; [exact Hs|].
      apply Forall_map. exact Hfresh.
    + apply Forall_app. split; [exact Hpos | repeat constructor; exact H1].
Qed.

Lemma upload_returns (f : UploadedFile) (db : DB) :
  upload f db = (Ok tt, snd (extract_pdf_data f db)).
Proof.
  unfold upload, try_except, bind, ret.
  now destruct (extract_pdf_data f db) as [[?|?] ?].
Qed.

Lemma upload_state (f : UploadedFile) (db : DB) :
  snd (extract_pdf_data f db) = snd (upload f db).
Proof. now rewrite upload_returns. Qed.

Lemma upload_all_keys :
  forall files db,
    StronglySorted Z.lt (map id (table db)) ->
    Forall (fun r => 1 <= id r) (table db) ->
    StronglySorted Z.lt (map id (table (snd (upload_all files db))))
    /\ Forall (fun r => 1 <= id r) (table (snd (upload_all files db))).
Proof.
  induction files as [|f files IH]; intros db Hs Hpos; [now split|].
  cbn [upload_all]. unfold bind. rewrite upload_returns, upload_state.
  apply IH; rewrite StoreFacts.upload_table; now apply page_rows_keys.
Qed.

(** The primary key: after any sequence of uploads to an empty store,
    failed ones included, the keys in the table are positive, strictly
    increasing in insertion order, and therefore pairwise distinct. *)
Theorem keys_are_fresh (files : list UploadedFile) :
  StronglySorted Z.lt (map id (table (snd (upload_all files (connect [])))))
  /\ NoDup (map id (table (snd (upload_all files (connect [])))))
  /\ Forall (fun r => 1 <= id r) (table (snd (upload_all files (connect [])))).
Proof.
  destruct (upload_all_keys files (connect [])) as [Hs Hpos];
    [constructor | constructor |].
  split; [exact Hs|]. split; [now apply sorted_NoDup | exact Hpos].
Qed.

Lemma page_dicts_of_rows fname :
  forall texts first rows,
    map dict_of_row (page_rows fname first texts rows)
    = page_dicts fname first texts.
Proof.
  induction texts as [|t texts IH]; intros first rows; cbn; [reflexivity|].
  now rewrite IH.
Qed.

Lemma leading_texts_all : forall ps,
  snd (leading_texts ps) = None -> ps = map Ok (fst (leading_texts ps)).
Proof.
  induction ps as [|[t|e] ps IH]; cbn; intros H; [reflexivity| |discriminate].
  destruct (leading_texts ps) as [ts oe]. cbn in *. now rewrite <- IH.
Qed.

(** What a successful call returns is what it stored: the connection is left
    with no open transaction, the rows it added mirror the returned dicts
    one for one, every page of the file is among them, and the returned full
    text is made of their contents. *)
Theorem extract_returns_what_it_stores (f : UploadedFile) (db db' : DB)
  (extracted_data : list PageDict) (full_text : string) :
  extract_pdf_data f db = (Ok (extracted_data, full_text), db') ->
  exists rows,
    db' = {| committed := (table db ++ rows)%list; pending := [] |}
    /\ map dict_of_row rows = extracted_data
    /\ pages f = Ok (map Ok (map content rows))
    /\ full_text = terminated (map content rows).
Proof.
  rewrite StoreFacts.extract_pdf_data_run.
  destruct (pages f) as [ps|e]; [|discriminate].
  destruct (snd (leading_texts ps)) eqn:Hsnd; [discriminate|].
  intros H. injection H as <- <- <-.
  exists (page_rows (name f) 0 (fst (leading_texts ps)) (table db)).
  rewrite page_dicts_of_rows, StoreFacts.page_rows_content.
  repeat split. f_equal. now apply leading_texts_all.
Qed.

Lemma extract_returns_what_it_stores_witness :
  exists rows,
    snd (extract_pdf_data alpha_beta (connect []))
    = {| committed := (table (connect []) ++ rows)%list; pending := [] |}
    /\ map dict_of_row rows
       = [ {| d_filename := "report.pdf"; d_page_number := 1;
              d_content := "Alpha" |};
           {| d_filename := "report.pdf"; d_page_number := 2;
              d_content := "Beta" |} ]
    /\ pages alpha_beta = Ok (map Ok (map content rows))
    /\ "Alpha" ++ LF ++ LF ++ "Beta" ++ LF ++ LF
       = terminated (map content rows).
Proof.
  apply (extract_returns_what_it_stores alpha_beta (connect [])).
  reflexivity.
Defined.

Lemma failed_extract_keeps_committed_witness :
  committed (snd (extract_pdf_data broken (connect []))) = committed (connect [])
  /\ pending (snd (extract_pdf_data broken (connect [])))
     = (pending (connect [])
        ++ page_rows (name broken) 0 (recorded_texts broken)
             (table (connect [])))%list.
Proof.
  apply (StoreFacts.failed_extract_keeps_committed broken (connect [])
           (mkExn "PdfReadError" "Unexpected end of stream")).
  reflexivity.
Defined.

Lemma page_rows_data fname :
  forall texts first rows rows',
    map row_data (page_rows fname first texts rows)
    = map row_data (page_rows fname first texts rows').
Proof.
  induction texts as [|t texts IH]; intros first rows rows'; cbn; [reflexivity|].
  f_equal. apply IH.
Qed.

(** No uniqueness on file names: uploading a file a second time appends a
    second copy of its records, equal to the first in file name, page
    numbers and contents, and different in the keys only. *)
Theorem reupload_duplicates (f : UploadedFile) (db : DB) :
  exists rows1 rows2,
    table (snd (upload_all [f; f] db)) = (table db ++ rows1 ++ rows2)%list
    /\ map content rows1 = recorded_texts f
    /\ map row_data rows1 = map row_data rows2.
Proof.
  exists (page_rows (name f) 0 (recorded_texts f) (table db)),
    (page_rows (name f) 0 (recorded_texts f) (table (snd (upload f db)))).
  split.
  - cbn [upload_all]. unfold bind.
    rewrite (upload_returns f db), (upload_state f db).
    rewrite (upload_returns f (snd (upload f db))), upload_state.
    cbn [ret snd].
    rewrite !StoreFacts.upload_table. now rewrite <- app_assoc.
  - split; [apply StoreFacts.page_rows_content | apply page_rows_data].
Qed.

(** The manager reads its own writes, committed or not: after an upload,
    successful or failed, [get_pdf_content] returns the texts that were in
    the table followed by the texts of the pages this upload got to
    extract. *)
Theorem read_after_upload (f : UploadedFile) (db : DB) :
  fst (get_pdf_content (snd (upload f db)))
  = Ok (join " " (map content (table db) ++ recorded_texts f)).
Proof.
  rewrite StoreFacts.get_pdf_content_run. cbn [fst].
  now rewrite StoreFacts.upload_table, map_app, StoreFacts.page_rows_content.
Qed.

Lemma failed_call_commits_nothing (f : UploadedFile) (db : DB) (e : exn) :
  fst (extract_pdf_data f db) = Raise e ->
  committed (snd (extract_pdf_data f db)) = committed db.
Proof.
  rewrite StoreFacts.extract_pdf_data_run.
  destruct (pages f) as [ps|e0]; cbn; [|reflexivity].
  now destruct (snd (leading_texts ps)).
Qed.

Lemma contains_trans (a b c : string) :
  contains a b -> contains b c -> contains a c.
Proof.
  intros (p & q & ->) (p' & q' & ->).
  exists (p ++ p'), (q' ++ q).
  now rewrite !StoreFacts.append_assoc.
Qed.

Lemma terminated_contains : forall texts t,
  In t texts -> contains (terminated texts) t.
Proof.
  induction texts as [|u texts IH]; intros t Hin; [contradiction|].
  destruct Hin as [<- | Hin]; cbn [terminated].
  - exists EmptyString, (LF ++ LF ++ terminated texts).
    now rewrite !StoreFacts.append_assoc.
  - destruct (IH t Hin) as (p & q & ->).
    exists ((u ++ LF ++ LF) ++ p), q.
    now rewrite !StoreFacts.append_assoc.
Qed.

(** From the upload to the request: when the full text returned for a file
    fits the cap, the text of every page of the file occurs verbatim in the
    prompt composed from it. *)
Theorem pages_reach_the_prompt (fname prompt : string) (texts : list string)
  (db : DB) (extracted_data : list PageDict) (full_text : string) :
  fst (extract_pdf_data (readable fname texts) db)
  = Ok (extracted_data, full_text) ->
  Z.of_nat (String.length full_text) <= 50000 ->
  Forall (fun t => contains (Analyzer.full_prompt prompt full_text) t) texts.
Proof.
  rewrite StoreFacts.extract_pdf_data_readable. cbn [fst].
  intros H Hlen. injection H as _ <-.
  assert (Hfull : contains (Analyzer.full_prompt prompt (terminated texts))
                    (terminated texts)).
  { unfold Analyzer.full_prompt, Analyzer.truncated_content.
    rewrite PromptFacts.substring_0_short by (unfold Analyzer.cap; lia).
    apply PromptFacts.contains_middle. }
  apply Forall_forall. intros t Ht.
  eapply contains_trans; [exact Hfull | now apply terminated_contains].
Qed.

Lemma pages_reach_the_prompt_witness :
  Forall
    (fun t =>
       contains
         (Analyzer.full_prompt "Summarize"
            ("Alpha" ++ LF ++ LF ++ "Beta" ++ LF ++ LF)) t)
    ["Alpha"; "Beta"].
Proof.
  apply (pages_reach_the_prompt "report.pdf" "Summarize" ["Alpha"; "Beta"]
           (connect [])
           (page_dicts "report.pdf" 0 ["Alpha"; "Beta"])).
  - reflexivity.
  - cbn. lia.
Defined.

End StoreInvariants.

(** ** A run of the page *)

Module PageFacts.

Import Analyzer Store Shell Startup Page.

(** What [process_upload] does, by the outcome of the extraction and of the
    analysis. *)
Lemma process_upload_run (f : UploadedFile) (custom_prompt analysis_type : string)
  (button : bool) (a : App) :
  process_upload f custom_prompt analysis_type button a
  = (Ok tt,
     match extract_pdf_data f (db a) with
     | (Raise e, d) =>
         {| db := d; world := world a; page := (page a ++ [error_box e])%list |}
     | (Ok (extracted_data, full_text), d) =>
         let shown :=
           (page a ++ upload_messages (name f) (length extracted_data))%list in
         if button
         then
           match analyze analysis_type custom_prompt full_text (world a) with
           | (Ok dsp, w) =>
               {| db := d; world := w; page := (shown ++ [st_show dsp])%list |}
           | (Raise e, w) =>
               {| db := d; world := w; page := (shown ++ [error_box e])%list |}
           end
         else {| db := d; world := world a; page := shown |}
     end).
Proof.
  unfold process_upload, try_except, bind, lift_db, lift_world, show, ret,
    error_box, upload_messages.
  destruct (extract_pdf_data f (db a)) as [[[ed ft]|e] d]; cbn.
  - destruct button; cbn.
    + destruct (analyze analysis_type custom_prompt ft (world a))
        as [[dsp|e] w]; cbn; now rewrite <- ?app_assoc.
    + now rewrite <- app_assoc.
  - reflexivity.
Qed.

Lemma analyze_predefined analysis_type custom_prompt full_text w :
  analysis_type <> "Custom Analysis" ->
  analyze analysis_type custom_prompt full_text w
  = (Raise (mkExn "AttributeError" no_analyze_pdf_content), w).
Proof.
  intros Hne. apply String.eqb_neq in Hne.
  unfold analyze. rewrite Hne. reflexivity.
Qed.

Lemma analyze_custom custom_prompt full_text w :
  custom_prompt <> EmptyString ->
  analyze "Custom Analysis" custom_prompt full_text w
  = (let '(r, w') :=
       generate_content_with_retry custom_prompt full_text
         default_max_retries w in
     match r with
     | Ok s => (Ok (st_results "Custom Analysis" s), w')
     | Raise e => (Raise e, w')
     end).
Proof.
  intros Hne. apply String.eqb_neq in Hne.
  unfold analyze. rewrite Hne. cbn. unfold bind. cbn.
  destruct (generate_content_with_retry custom_prompt full_text
              default_max_retries w) as [[s|e] w']; reflexivity.
Qed.

Lemma page_dicts_length fname : forall texts first,
  length (page_dicts fname first texts) = length texts.
Proof.
  induction texts as [|t texts IH]; intros first; cbn; [reflexivity|].
  now rewrite IH.
Qed.

(** The handler of [main] catches everything: processing an upload never
    raises, and what it does to the store is what the extraction alone does,
    whatever analysis was asked for and however it ended. *)
Theorem analysis_leaves_store_alone (f : UploadedFile)
  (custom_prompt analysis_type : string) (button : bool) (a : App) :
  fst (process_upload f custom_prompt analysis_type button a) = Ok tt
  /\ db (snd (process_upload f custom_prompt analysis_type button a))
     = snd (extract_pdf_data f (db a)).
Proof.
  rewrite process_upload_run. split; [reflexivity|]. cbn [snd].
  destruct (extract_pdf_data f (db a)) as [[[ed ft]|e] d]; [|reflexivity].
  destruct button; [|reflexivity].
  now destruct (analyze analysis_type custom_prompt ft (world a)) as [[?|?] ?].
Qed.

(** A file whose extraction raises: the page shows the error box with the
    exception's message and no success message, no request goes to the
    service, and the committed rows are what they were. *)
Theorem failed_extraction_shows_error (f : UploadedFile)
  (custom_prompt analysis_type : string) (button : bool) (a : App) (e : exn) :
  fst (extract_pdf_data f (db a)) = Raise e ->
  page (snd (process_upload f custom_prompt analysis_type button a))
  = (page a ++ [st_show (st_error ("Error processing PDF: " ++ exn_str e))])%list
  /\ world (snd (process_upload f custom_prompt analysis_type button a))
     = world a
  /\ committed (db (snd (process_upload f custom_prompt analysis_type button a)))
     = committed (db a).
Proof.
  intros Hraise.
  pose proof (StoreInvariants.failed_call_commits_nothing f (db a) e Hraise)
    as Hc.
  rewrite process_upload_run. cbn [snd].
  destruct (extract_pdf_data f (db a)) as [[[ed ft]|e'] d]; [discriminate|].
  cbn in Hraise. injection Hraise as ->. cbn in Hc. now repeat split.
Qed.

Lemma failed_extraction_shows_error_witness :
  page (snd (process_upload unreadable "List all technical terms"
               "Custom Analysis" true
               (fresh_app (flaky 0 "Terms."))))
  = ([] ++ [st_show (st_error "Error processing PDF: EOF marker not found")])%list
  /\ world (snd (process_upload unreadable "List all technical terms"
                   "Custom Analysis" true
                   (fresh_app (flaky 0 "Terms."))))
     = flaky 0 "Terms."
  /\ committed
       (db (snd (process_upload unreadable "List all technical terms"
                   "Custom Analysis" true
                   (fresh_app (flaky 0 "Terms.")))))
     = [].
Proof.
  apply (failed_extraction_shows_error unreadable "List all technical terms"
           "Custom Analysis" true
           (fresh_app (flaky 0 "Terms."))
           (mkExn "PdfReadError" "EOF marker not found")).
  reflexivity.
Defined.

(** What a run does with a file whose pages all extract, up to the
    analysis. *)
Lemma process_readable (fname : string) (texts : list string)
  (custom_prompt analysis_type : string) (button : bool) (a : App) :
  snd (process_upload (readable fname texts) custom_prompt analysis_type
         button a)
  = let d := {| committed :=
                  (table (db a) ++ page_rows fname 0 texts (table (db a)))%list;
                pending := [] |} in
    let shown := (page a ++ upload_messages fname (length texts))%list in
    if button
    then
      match analyze analysis_type custom_prompt (terminated texts) (world a) with
      | (Ok dsp, w) =>
          {| db := d; world := w; page := (shown ++ [st_show dsp])%list |}
      | (Raise e, w) =>
          {| db := d; world := w; page := (shown ++ [error_box e])%list |}
      end
    else {| db := d; world := world a; page := shown |}.
Proof.
  rewrite process_upload_run, StoreFacts.extract_pdf_data_readable.
  cbn [snd name readable]. now rewrite page_dicts_length.
Qed.

(** Without a press of the button the run stores the pages, reports how
    many it extracted, and sends nothing to the service. *)
Theorem upload_without_analysis (fname : string) (texts : list string)
  (custom_prompt analysis_type : string) (a : App) :
  snd (process_upload (readable fname texts) custom_prompt analysis_type
         false a)
  = {| db := {| committed :=
                  (table (db a) ++ page_rows fname 0 texts (table (db a)))%list;
                pending := [] |};
       world := world a;
       page := (page a
                ++ [ st_success ("Successfully uploaded " ++ fname);
                     st_write ("Extracted " ++ str_of_nat (length texts)
                               ++ " pages") ])%list |}.
Proof. now rewrite process_readable. Qed.

(** Any analysis type but "Custom Analysis": the pages are stored and the
    two success messages shown, then the missing method raises, so the run
    ends on the error box "Error processing PDF: ..." although the PDF was
    processed and committed; no request is sent. *)
Theorem predefined_type_ends_on_error_box (fname : string)
  (texts : list string) (custom_prompt analysis_type : string) (a : App) :
  analysis_type <> "Custom Analysis" ->
  snd (process_upload (readable fname texts) custom_prompt analysis_type
         true a)
  = {| db := {| committed :=
                  (table (db a) ++ page_rows fname 0 texts (table (db a)))%list;
                pending := [] |};
       world := world a;
       page := (page a
                ++ [ st_success ("Successfully uploaded " ++ fname);
                     st_write ("Extracted " ++ str_of_nat (length texts)
                               ++ " pages");
                     st_show (st_error ("Error processing PDF: "
                                        ++ no_analyze_pdf_content)) ])%list |}.
Proof.
  intros Hne. rewrite process_readable. cbv zeta.
  rewrite (analyze_predefined _ _ _ _ Hne).
  unfold upload_messages, error_box. cbn [exn_str].
  now rewrite <- app_assoc.
Qed.

Lemma predefined_type_ends_on_error_box_witness :
  snd (process_upload alpha_beta EmptyString "Key Insights" true
         (fresh_app (flaky 0 "Insights.")))
  = {| db := {| committed :=
                  (table (connect [])
                   ++ page_rows "report.pdf" 0 ["Alpha"; "Beta"]
                        (table (connect [])))%list;
                pending := [] |};
       world := flaky 0 "Insights.";
       page := ([]
                ++ [ st_success "Successfully uploaded report.pdf";
                     st_write "Extracted 2 pages";
                     st_show (st_error ("Error processing PDF: "
                                        ++ no_analyze_pdf_content)) ])%list |}.
Proof.
  apply (predefined_type_ends_on_error_box "report.pdf" ["Alpha"; "Beta"]
           EmptyString "Key Insights" (fresh_app (flaky 0 "Insights."))).
  discriminate.
Defined.

(** "Custom Analysis" with a prompt: the run stores the pages, calls the
    analyzer once with the typed prompt, the full text of this upload and
    the default budget, and shows what it returns under the results header;
    the error box is never shown. *)
Theorem custom_analysis_shows_result (fname : string) (texts : list string)
  (custom_prompt : string) (a : App) :
  custom_prompt <> EmptyString ->
  exists s w',
    generate_content_with_retry custom_prompt (terminated texts)
      default_max_retries (world a) = (Ok s, w')
    /\ snd (process_upload (readable fname texts) custom_prompt
              "Custom Analysis" true a)
       = {| db := {| committed :=
                       (table (db a)
                        ++ page_rows fname 0 texts (table (db a)))%list;
                     pending := [] |};
            world := w';
            page := (page a
                     ++ [ st_success ("Successfully uploaded " ++ fname);
                          st_write ("Extracted " ++ str_of_nat (length texts)
                                    ++ " pages");
                          st_show (st_results "Custom Analysis" s) ])%list |}.
Proof.
  intros Hne.
  destruct (AnalyzerFacts.default_retry_always_returns custom_prompt
              (terminated texts) (world a)) as (s & w' & Hrun).
  exists s, w'. split; [exact Hrun|].
  rewrite process_readable. cbv zeta.
  rewrite (analyze_custom _ _ _ Hne), Hrun.
  unfold upload_messages. now rewrite <- app_assoc.
Qed.

Lemma custom_analysis_shows_result_witness :
  exists s w',
    generate_content_with_retry "List all technical terms"
      (terminated ["Alpha"; "Beta"]) default_max_retries
      (world (fresh_app (flaky 1 "Alpha, Beta."))) = (Ok s, w')
    /\ snd (process_upload alpha_beta "List all technical terms"
              "Custom Analysis" true (fresh_app (flaky 1 "Alpha, Beta.")))
       = {| db := {| committed :=
                       (table (connect [])
                        ++ page_rows "report.pdf" 0 ["Alpha"; "Beta"]
                             (table (connect [])))%list;
                     pending := [] |};
            world := w';
            page := ([]
                     ++ [ st_success "Successfully uploaded report.pdf";
                          st_write "Extracted 2 pages";
                          st_show (st_results "Custom Analysis" s) ])%list |}.
Proof.
  apply (custom_analysis_shows_result "report.pdf" ["Alpha"; "Beta"]
           "List all technical terms" (fresh_app (flaky 1 "Alpha, Beta."))).
  discriminate.
Defined.

(** "Custom Analysis" with an empty prompt: the pages are stored all the
    same, a warning asks for a prompt, and no request is sent. *)
Theorem empty_custom_prompt_warns (fname : string) (texts : list string)
  (a : App) :
  snd (process_upload (readable fname texts) EmptyString "Custom Analysis"
         true a)
  = {| db := {| committed :=
                  (table (db a) ++ page_rows fname 0 texts (table (db a)))%list;
                pending := [] |};
       world := world a;
       page := (page a
                ++ [ st_success ("Successfully uploaded " ++ fname);
                     st_write ("Extracted " ++ str_of_nat (length texts)
                               ++ " pages");
                     st_show (st_warning
                                "Please enter a custom prompt for analysis") ])%list |}.
Proof.
  rewrite process_readable. cbn. unfold upload_messages.
  now rewrite <- app_assoc.
Qed.

Lemma analyze_sends_only_custom analysis_type custom_prompt full_text w :
  calls (snd (analyze analysis_type custom_prompt full_text w)) <> calls w ->
  analysis_type = "Custom Analysis" /\ custom_prompt <> EmptyString.
Proof.
  intros Hcalls.
  destruct (String.eqb_spec analysis_type "Custom Analysis") as [-> | Hne].
  - split; [reflexivity|]. intros ->. now apply Hcalls.
  - exfalso. apply Hcalls. now rewrite (analyze_predefined _ _ _ _ Hne).
Qed.

(** When a run sends anything to the service, the button was pressed, the
    analysis type was "Custom Analysis", the prompt was not empty, and the
    extraction of the uploaded file had succeeded. *)
Theorem requests_need_custom_analysis (f : UploadedFile)
  (custom_prompt analysis_type : string) (button : bool) (a : App) :
  calls (world (snd (process_upload f custom_prompt analysis_type button a)))
  <> calls (world a) ->
  button = true
  /\ analysis_type = "Custom Analysis"
  /\ custom_prompt <> EmptyString
  /\ exists extracted_data full_text,
       fst (extract_pdf_data f (db a)) = Ok (extracted_data, full_text).
Proof.
  rewrite process_upload_run. cbn [snd].
  destruct (extract_pdf_data f (db a)) as [[[ed ft]|e] d]; cbn [world fst];
    [|intros H; now contradiction H].
  destruct button; cbn [world]; [|intros H; now contradiction H].
  intros Hcalls.
  assert (Hsent : calls (snd (analyze analysis_type custom_prompt ft (world a)))
                  <> calls (world a)).
  { destruct (analyze analysis_type custom_prompt ft (world a)) as [[?|?] ?];
      exact Hcalls. }
  destruct (analyze_sends_only_custom _ _ _ _ Hsent) as [Hat Hcp].
  split; [reflexivity|]. split; [exact Hat|]. split; [exact Hcp|].
  now exists ed, ft.
Qed.

Lemma requests_need_custom_analysis_witness :
  true = true
  /\ "Custom Analysis" = "Custom Analysis"
  /\ "List all technical terms" <> EmptyString
  /\ exists extracted_data full_text,
       fst (extract_pdf_data gamma (db (fresh_app (flaky 0 "Gamma."))))
       = Ok (extracted_data, full_text).
Proof.
  apply (requests_need_custom_analysis gamma "List all technical terms"
           "Custom Analysis" true (fresh_app (flaky 0 "Gamma."))).
  vm_compute. discriminate.
Defined.

Lemma extraction_result_ignores_store (f : UploadedFile) (d1 d2 : DB) :
  fst (extract_pdf_data f d1) = fst (extract_pdf_data f d2).
Proof.
  rewrite !StoreFacts.extract_pdf_data_run.
  destruct (pages f) as [ps|e]; [|reflexivity].
  now destruct (snd (leading_texts ps)).
Qed.

(** The analysis works on the uploaded file alone: the requests sent and
    the messages shown do not depend on what the store held before the run.
    Text of documents uploaded earlier never reaches the service. *)
Theorem analysis_ignores_stored_content (f : UploadedFile)
  (custom_prompt analysis_type : string) (button : bool)
  (d1 d2 : DB) (w : World) (shown : list message) :
  world (snd (process_upload f custom_prompt analysis_type button
                {| db := d1; world := w; page := shown |}))
  = world (snd (process_upload f custom_prompt analysis_type button
                  {| db := d2; world := w; page := shown |}))
  /\ page (snd (process_upload f custom_prompt analysis_type button
                  {| db := d1; world := w; page := shown |}))
     = page (snd (process_upload f custom_prompt analysis_type button
                    {| db := d2; world := w; page := shown |})).
Proof.
  rewrite !process_upload_run. cbn [snd db world page].
  pose proof (extraction_result_ignores_store f d1 d2) as Hsame.
  destruct (extract_pdf_data f d1) as [[[ed1 ft1]|e1] s1];
    destruct (extract_pdf_data f d2) as [[[ed2 ft2]|e2] s2];
    cbn [fst] in Hsame; try discriminate.
  - injection Hsame as -> ->.
    destruct button; [|now split].
    now destruct (analyze analysis_type custom_prompt ft2 w) as [[?|?] ?].
  - injection Hsame as ->. now split.
Qed.

(** The key gate of [main]: with the environment variable unset or empty
    and nothing typed in the sidebar, the run stops on the warning; no
    manager is built, nothing is stored and nothing is sent. As soon as one of
    the two holds a key the run goes on, and without an upload it shows
    nothing and touches neither store nor service. *)
Theorem main_needs_a_key (getenv : option string) (typed : string)
  (uploaded_file : option UploadedFile) (custom_prompt analysis_type : string)
  (button : bool) (rows : list Row) (w : World) :
  (truthy getenv = false /\ typed = EmptyString ->
   main getenv typed uploaded_file custom_prompt analysis_type button rows w
   = Stopped
       [st_show (st_warning "Please provide a valid Google Gemini Pro API Key")])
  /\ (truthy getenv = true \/ typed <> EmptyString ->
      main getenv typed None custom_prompt analysis_type button rows w
      = Finished {| db := connect rows; world := w; page := [] |}).
Proof.
  unfold main, get_google_api_key. split.
  - intros [Henv ->]. now rewrite Henv.
  - intros [Henv | Htyped].
    + rewrite Henv. cbn. now rewrite Henv.
    + destruct (truthy getenv) eqn:Henv; cbn.
      * now rewrite Henv.
      * apply String.eqb_neq in Htyped. now rewrite Htyped.
Qed.

Lemma main_needs_a_key_witness :
  main (Some EmptyString) EmptyString (Some alpha_beta) "Summarize the main conclusions"
    "Custom Analysis" true [] down
  = Stopped
      [st_show (st_warning "Please provide a valid Google Gemini Pro API Key")]
  /\ main None "sk-typed" None EmptyString "Summarize" false [] down
     = Finished {| db := connect []; world := down; page := [] |}.
Proof.
  split.
  - apply (main_needs_a_key (Some EmptyString) EmptyString (Some alpha_beta)
             "Summarize the main conclusions" "Custom Analysis" true [] down).
    split; reflexivity.
  - apply (main_needs_a_key None "sk-typed" None EmptyString "Summarize"
             false [] down).
    right. discriminate.
Defined.

End PageFacts.

(** ** Atomicity of an upload *)

Module AtomicityFacts.

Import Analyzer Store Shell Startup Page.

(** One call on a connection as [__init__] leaves it: the committed rows
    grow by the records of all pages, or not at all. *)
Lemma committed_after_call (f : UploadedFile) (rows : list Row) :
  committed (snd (extract_pdf_data f (connect rows)))
  = (rows ++ page_rows (name f) 0 (complete_texts f) rows)%list.
Proof.
  rewrite StoreFacts.extract_pdf_data_run. unfold complete_texts.
  unfold table.
  destruct (pages f) as [ps|e].
  - destruct (leading_texts ps) as [ts [e|]];
      cbn [fst snd committed pending connect page_rows];
      now rewrite ?app_nil_r.
  - cbn [snd committed connect page_rows]. now rewrite app_nil_r.
Qed.

(** Either the call raises and [complete_texts] is empty, or the file
    opened, every page extracted, and [complete_texts] lists them all. *)
Lemma complete_or_failed (f : UploadedFile) (db : DB) :
  (pages f = Ok (map Ok (complete_texts f))
   /\ exists extracted_data full_text,
        fst (extract_pdf_data f db) = Ok (extracted_data, full_text))
  \/ (complete_texts f = []
      /\ exists e, fst (extract_pdf_data f db) = Raise e).
Proof.
  rewrite StoreFacts.extract_pdf_data_run. unfold complete_texts.
  destruct (pages f) as [ps|e]; [|right; split; [reflexivity | now exists e]].
  pose proof (StoreInvariants.leading_texts_all ps) as Hall.
  destruct (leading_texts ps) as [ts [e|]]; cbn [fst snd] in *.
  - right. split; [reflexivity | now exists e].
  - left. split; [now rewrite <- Hall | now eexists _, _].
Qed.

Lemma process_upload_db (f : UploadedFile) (custom_prompt analysis_type : string)
  (button : bool) (a : App) :
  db (snd (process_upload f custom_prompt analysis_type button a))
  = snd (extract_pdf_data f (db a)).
Proof.
  rewrite PageFacts.process_upload_run. cbn [snd].
  destruct (extract_pdf_data f (db a)) as [[[ed ft]|e] d]; [|reflexivity].
  destruct button; [|reflexivity].
  now destruct (analyze analysis_type custom_prompt ft (world a)) as [[?|?] ?].
Qed.

(** The database file after one run of [main]. *)
Lemma stored_after_run (getenv : option string) (typed : string)
  (uploaded_file : option UploadedFile) (custom_prompt analysis_type : string)
  (button : bool) (rows : list Row) (w : World) :
  stored_after rows
    (main getenv typed uploaded_file custom_prompt analysis_type button rows w)
  = match uploaded_file with
    | Some f =>
        if truthy (fst (get_google_api_key getenv typed))
        then (rows ++ page_rows (name f) 0 (complete_texts f) rows)%list
        else rows
    | None => rows
    end.
Proof.
  unfold main.
  destruct (get_google_api_key getenv typed) as [api_key rendered]. cbn [fst].
  destruct (truthy api_key); cbn [negb stored_after].
  - destruct uploaded_file as [f|]; [|reflexivity].
    cbn [stored_after]. rewrite process_upload_db. cbn [db].
    apply committed_after_call.
  - now destruct uploaded_file.
Qed.

Lemma page_rows_numbered fname :
  forall texts first rows,
    map row_data (page_rows fname first texts rows) = numbered fname first texts.
Proof.
  induction texts as [|t texts IH]; intros first rows; cbn; [reflexivity|].
  now rewrite IH.
Qed.

Lemma stored_after_run_data (i : Inputs) (rows : list Row) (w : World) :
  map row_data (stored_after rows (run_main i rows w))
  = (map row_data rows ++ complete_records i)%list.
Proof.
  unfold run_main, complete_records. rewrite stored_after_run.
  destruct (in_file i) as [f|];
    destruct (truthy (fst (get_google_api_key (in_getenv i) (in_typed i))));
    rewrite ?app_nil_r; try reflexivity.
  now rewrite map_app, page_rows_numbered.
Qed.

Lemma sessions_data :
  forall (inputs : list Inputs) (rows : list Row) (w : World),
    map row_data (fst (sessions inputs rows w))
    = (map row_data rows ++ concat (map complete_records inputs))%list.
Proof.
  induction inputs as [|i inputs IH]; intros rows w; cbn [sessions map concat fst].
  - now rewrite app_nil_r.
  - rewrite IH, stored_after_run_data. now rewrite app_assoc.
Qed.

(** C6: an upload is recorded as a whole or not at all.
    On the connection a manager opens, one call of [extract_pdf_data]
    either returns, the file having opened and every page extracted, and the
    committed rows have grown by one record per page of the file, in order;
    or it raises and the committed rows are what they were.
    The same holds of a run of [main] that uploads the file, whatever
    analysis follows: the database file afterwards holds what it held plus
    those same records, all of them or none (none also when the run stops
    for want of a key). And after any sequence of runs the file holds, besides
    what it held before and in insertion order, exactly the page records of
    the uploads that extracted completely: a failed upload leaves no record
    behind. *)
Theorem upload_is_all_or_nothing (f : UploadedFile) (rows : list Row) :
  committed (snd (extract_pdf_data f (connect rows)))
  = (rows ++ page_rows (name f) 0 (complete_texts f) rows)%list
  /\ ((pages f = Ok (map Ok (complete_texts f))
       /\ exists extracted_data full_text,
            fst (extract_pdf_data f (connect rows))
            = Ok (extracted_data, full_text))
      \/ (exists e, fst (extract_pdf_data f (connect rows)) = Raise e)
         /\ committed (snd (extract_pdf_data f (connect rows))) = rows)
  /\ (forall getenv typed custom_prompt analysis_type button w,
        stored_after rows
          (main getenv typed (Some f) custom_prompt analysis_type button rows w)
        = if truthy (fst (get_google_api_key getenv typed))
          then (rows ++ page_rows (name f) 0 (complete_texts f) rows)%list
          else rows)
  /\ (forall inputs w,
        map row_data (fst (sessions inputs rows w))
        = (map row_data rows ++ concat (map complete_records inputs))%list).
Proof.
  split; [apply committed_after_call|].
  split.
  - destruct (complete_or_failed f (connect rows)) as [Hall | [Hnone Hraise]].
    + now left.
    + right. split; [exact Hraise|].
      rewrite committed_after_call, Hnone. cbn. now rewrite app_nil_r.
  - split.
    + intros getenv typed custom_prompt analysis_type button w.
      now rewrite stored_after_run.
    + intros inputs w. apply sessions_data.
Qed.

(** The failed upload of [broken] followed, in a later run, by the upload
    of [gamma]: the file holds the page of [gamma] and nothing of
    [broken]. *)
Example broken_then_gamma :
  fst (sessions
         [ mkInputs (Some "key") EmptyString (Some broken) EmptyString
             "Summarize" false;
           mkInputs (Some "key") EmptyString (Some gamma) EmptyString
             "Summarize" false ]
         [] down)
  = [ {| id := 1; filename := "notes.pdf"; page_number := 1;
         content := "Gamma" |} ].
Proof. reflexivity. Qed.

End AtomicityFacts.
